(** * Event handler: validation and normalisation of signup, payment and
      file-upload events (src/handler.py)

    The development embeds [handler] and its three validators as Rocq
    functions over a type of JSON values and proves the properties of the
    response envelope, of the error lists and of the computed fields.

    Conventions of the embedding.
    - A Python [str] is a Rocq [string]; the character numbered [n] stands
      for the code point [n] (0 to 255).
    - A Python [int] is a [Z]; a Python [bool] is a [bool], and, as in
      Python, a boolean passes [isinstance(_, int)].
    - A Python [float] is a binary64 value of [spec_float]; arithmetic is
      the IEEE 754 arithmetic of [SpecFloat] at precision 53.
    - A Python [dict] is an association list in insertion order; [d.get(k)]
      and [k in d] read the first binding of [k].
    - A call that can raise returns a [result]: [Return v] or [Raise e].
    - [str] of an integer prints all its digits (no limit on their
      number).
    - Each validator is split in two: the statements up to [if errors:]
      are the function that computes the list ([signup_errors],
      [payment_errors], [upload_errors]), the rest is the validator
      proper. *)

From Stdlib Require Import ZArith List String Ascii Bool Lia.
From Stdlib Require Import DecimalString SpecFloat.
Import ListNotations.

Local Open Scope string_scope.
Local Open Scope Z_scope.

(** ** Binary64 floating point *)

Module Float.

Definition prec : Z := 53.
Definition emax : Z := 1024.

(** A float is a [spec_float] that is valid for binary64
    ([valid_binary prec emax]), as the results of the operations below
    are. *)
Definition float := spec_float.

Definition mul : float -> float -> float := SFmul prec emax.
Definition sub : float -> float -> float := SFsub prec emax.
Definition leb : float -> float -> bool := SFleb.
Definition ltb : float -> float -> bool := SFltb.

(** The double nearest to the rational [n / d] ([d] positive), ties to even:
    the value a decimal literal or a decimal string denotes. [szero] is the
    sign given to a zero result. *)
Definition of_ratio (szero : bool) (n : Z) (d : positive) : float :=
  match n with
  | Z0 => S754_zero szero
  | Zpos p => SFdiv prec emax (S754_finite false p 0) (S754_finite false d 0)
  | Zneg p => SFdiv prec emax (S754_finite true p 0) (S754_finite false d 0)
  end.

(** [n / 10^k] as a double. *)
Definition of_decimal (n : Z) (k : nat) : float :=
  of_ratio false n (Pos.pow 10 (Pos.of_nat k)).

(** The double nearest to the integer [n]; infinite when [n] is out of
    range. *)
Definition of_Z (n : Z) : float := binary_normalize prec emax n 0 false.

Definition zero : float := S754_zero false.

(** The integer nearest to [n / d], ties to the even integer. *)
Definition div_half_even (n : Z) (d : positive) : Z :=
  let q := n / Zpos d in
  let r := n mod Zpos d in
  match 2 * r ?= Zpos d with
  | Lt => q
  | Gt => q + 1
  | Eq => if Z.even q then q else q + 1
  end.

(** The magnitude [m * 2^e] times [10^k], as a fraction. *)
Definition scaled (m : positive) (e : Z) (k : nat) : Z * positive :=
  match e with
  | Zneg p => (Zpos m * 10 ^ Z.of_nat k, Pos.pow 2 p)
  | _ => (Zpos m * 2 ^ e * 10 ^ Z.of_nat k, 1%positive)
  end.

(** *** Python's view of a float *)

(** [round(x, ndigits)] for a float [x] and [ndigits >= 0]: the exact value
    of [x] is rounded to [ndigits] decimal places, an exact tie going to the
    even last digit, and the resulting decimal is read back as the nearest
    double. Infinities, NaN and zeros round to themselves. *)
Definition round (x : float) (ndigits : nat) : float :=
  match x with
  | S754_finite s m e =>
      let '(n, d) := scaled m e ndigits in
      of_ratio s (cond_Zopp s (div_half_even n d))
               (Z.to_pos (10 ^ Z.of_nat ndigits))
  | _ => x
  end.

(** [n / d < 10^p] *)
Definition lt_pow10 (n d p : Z) : bool :=
  if 0 <=? p then n <? d * 10 ^ p else n * 10 ^ (- p) <? d.

Fixpoint find_decpt (fuel : nat) (n d p : Z) : Z :=
  match fuel with
  | O => p
  | S fuel' => if lt_pow10 n d p then p else find_decpt fuel' n d (p + 1)
  end.

(** The decimal point position of [n / d > 0]: the [p] with
    [10^(p-1) <= n / d < 10^p]; doubles lie between [10^-324] and
    [10^309]. *)
Definition decpt (n d : Z) : Z := find_decpt 700 n d (-330).

Fixpoint strip_zeros (fuel : nat) (c : Z) : Z :=
  match fuel with
  | O => c
  | S fuel' => if (c mod 10 =? 0) && negb (c =? 0)
               then strip_zeros fuel' (c / 10) else c
  end.

(** The [k]-digit decimal [c * 10^(p-k)] nearest to [x = xn / D] among
    those that read back as [x], that is, lie between [lo / D] and
    [hi / D] (bounds included when [incl]). *)
Definition candidate (xn lo hi D : Z) (incl : bool) (p : Z) (k : Z)
  : option Z :=
  let q := p - k in
  let S := if 0 <=? q then 1 else 10 ^ (- q) in
  let T := if 0 <=? q then 10 ^ q else 1 in
  let cl := (xn * S) / (T * D) in
  let ch := cl + 1 in
  let inside c :=
    if incl then (lo * S <=? c * T * D) && (c * T * D <=? hi * S)
    else (lo * S <? c * T * D) && (c * T * D <? hi * S) in
  let dl := xn * S - cl * T * D in
  let dh := ch * T * D - xn * S in
  match inside cl, inside ch with
  | true, true => Some (if dl <=? dh then cl else ch)
  | true, false => Some cl
  | false, true => Some ch
  | false, false => None
  end.

Fixpoint shortest (fuel : nat) (xn lo hi D : Z) (incl : bool) (p k : Z)
  : Z * Z :=
  match fuel with
  | O => (0, 0)
  | S fuel' =>
      match candidate xn lo hi D incl p k with
      | Some c => (c, p - k)
      | None => shortest fuel' xn lo hi D incl p (k + 1)
      end
  end.

Definition digits_of (c : Z) : string :=
  NilZero.string_of_int (Z.to_int c).

Fixpoint zeros (n : nat) : string :=
  match n with O => EmptyString | S n' => String "0" (zeros n') end.

(** The shortest digit string that reads back as [m * 2^e], and its decimal
    point position. *)
Definition shortest_digits (m : positive) (e : Z) : string * Z :=
  let sh := Z.max 0 (- e) in
  let D := 4 * 2 ^ sh in
  let xn := 4 * Zpos m * 2 ^ (e + sh) in
  let u := 4 * 2 ^ (e + sh) in
  let hi := xn + u / 2 in
  let lo := if (Zpos m =? 2 ^ 52) && (-1074 <? e)
            then xn - u / 4 else xn - u / 2 in
  let p := decpt xn D in
  let '(c, q) := shortest 17 xn lo hi D (Z.even (Zpos m)) p 1 in
  (digits_of (strip_zeros 20 c), Z.of_nat (String.length (digits_of c)) + q).

Definition two_digits (n : Z) : string :=
  if n <? 10 then String "0" (digits_of n) else digits_of n.

(** [repr(x)], which is also [str(x)] and what an f-string interpolates:
    the shortest digits, in positional notation when the decimal point
    position is in [-3 .. 16] and in exponent notation otherwise. *)
Definition repr (x : float) : string :=
  match x with
  | S754_nan => "nan"
  | S754_infinity s => if s then "-inf" else "inf"
  | S754_zero s => if s then "-0.0" else "0.0"
  | S754_finite s m e =>
      let '(ds, dp) := shortest_digits m e in
      let nd := Z.of_nat (String.length ds) in
      let body :=
        if (dp <=? -4) || (16 <? dp) then
          String.substring 0 1 ds
          ++ (if 1 <? nd then "." ++ String.substring 1 (String.length ds - 1) ds
              else EmptyString)
          ++ "e" ++ (if dp - 1 <? 0 then "-" else "+")
          ++ two_digits (Z.abs (dp - 1))
        else if dp <=? 0 then
          "0." ++ zeros (Z.to_nat (- dp)) ++ ds
        else if nd <=? dp then
          ds ++ zeros (Z.to_nat (dp - nd)) ++ ".0"
        else
          String.substring 0 (Z.to_nat dp) ds ++ "."
          ++ String.substring (Z.to_nat dp) (String.length ds - Z.to_nat dp) ds
      in
      if s then "-" ++ body else body
  end.

End Float.

(** ** Strings *)

Module Str.

Definition chars : string -> list ascii := list_ascii_of_string.
Definition of_chars : list ascii -> string := string_of_list_ascii.

Definition code (c : ascii) : N := N_of_ascii c.

Definition between (lo hi n : N) : bool := ((lo <=? n) && (n <=? hi))%N.

(** Whitespace as [str.isspace], [str.strip] and the regex class [\s] see
    it: tab to carriage return, the four separators 28 to 31, space, NEL
    and the no-break space. *)
Definition is_space (c : ascii) : bool :=
  let n := code c in
  (between 9 13 n || between 28 32 n || (n =? 133) || (n =? 160))%N.

Definition lower_char (c : ascii) : ascii :=
  let n := code c in
  if (between 65 90 n || between 192 214 n || between 216 222 n)%N
  then ascii_of_N (n + 32) else c.

(** The upper-case forms of code points 181, 223 and 255 lie outside the
    range of [ascii] (223 becomes two letters); they are left as they are,
    and a string that holds one of them is not an accepted currency either
    way. *)
Definition upper_char (c : ascii) : ascii :=
  let n := code c in
  if (between 97 122 n || between 224 246 n || between 248 254 n)%N
  then ascii_of_N (n - 32) else c.

Definition lower (s : string) : string := of_chars (map lower_char (chars s)).
Definition upper (s : string) : string := of_chars (map upper_char (chars s)).

Fixpoint lstrip (cs : list ascii) : list ascii :=
  match cs with
  | c :: cs' => if is_space c then lstrip cs' else cs
  | [] => []
  end.

Definition strip (s : string) : string :=
  of_chars (rev (lstrip (rev (lstrip (chars s))))).

Definition mem (s : string) (set : list string) : bool :=
  existsb (String.eqb s) set.

Definition hex_digit (n : N) : ascii :=
  if (n <? 10)%N then ascii_of_N (48 + n) else ascii_of_N (87 + n).

(** Is the code point printed as it is by [repr]? Control characters, the
    range 127 to 160 and the soft hyphen are not. *)
Definition printable (c : ascii) : bool :=
  let n := code c in
  negb ((n <? 32) || between 127 160 n || (n =? 173))%N.

Definition escape_char (quote c : ascii) : list ascii :=
  if Ascii.eqb c quote || Ascii.eqb c "\" then ["\"; c]%char
  else if Ascii.eqb c "009" then ["\"; "t"]%char
  else if Ascii.eqb c "010" then ["\"; "n"]%char
  else if Ascii.eqb c "013" then ["\"; "r"]%char
  else if printable c then [c]
  else ["\"; "x"; hex_digit (code c / 16); hex_digit (code c mod 16)]%char.

(** [repr(s)]: in single quotes, unless the string holds a single quote
    and no double quote. *)
Definition repr (s : string) : string :=
  let cs := chars s in
  let quote : ascii :=
    if existsb (Ascii.eqb "'") cs && negb (existsb (Ascii.eqb "034") cs)
    then "034"%char else "'"%char in
  of_chars (quote :: flat_map (escape_char quote) cs ++ [quote]).

Fixpoint join (sep : string) (parts : list string) : string :=
  match parts with
  | [] => EmptyString
  | [x] => x
  | x :: rest => x ++ sep ++ join sep rest
  end.

End Str.

(** ** Regular expressions *)

Module Re.

Inductive regex : Type :=
| Void
| Eps
| Class (p : ascii -> bool)
| Cat (r1 r2 : regex)
| Alt (r1 r2 : regex)
| Star (r : regex).

Definition Lit (c : ascii) : regex := Class (Ascii.eqb c).
Definition Plus (r : regex) : regex := Cat r (Star r).

Fixpoint nullable (r : regex) : bool :=
  match r with
  | Void => false
  | Eps => true
  | Class _ => false
  | Cat r1 r2 => nullable r1 && nullable r2
  | Alt r1 r2 => nullable r1 || nullable r2
  | Star _ => true
  end.

Fixpoint deriv (c : ascii) (r : regex) : regex :=
  match r with
  | Void => Void
  | Eps => Void
  | Class p => if p c then Eps else Void
  | Cat r1 r2 =>
      if nullable r1
      then Alt (Cat (deriv c r1) r2) (deriv c r2)
      else Cat (deriv c r1) r2
  | Alt r1 r2 => Alt (deriv c r1) (deriv c r2)
  | Star r1 => Cat (deriv c r1) (Star r1)
  end.

(** Does [r] match the whole of [cs]? *)
Fixpoint fullmatch (r : regex) (cs : list ascii) : bool :=
  match cs with
  | [] => nullable r
  | c :: cs' => fullmatch (deriv c r) cs'
  end.

Definition newline : ascii := "010"%char.

(** [cs] without its last character when that is a newline. *)
Definition before_final_newline (cs : list ascii) : option (list ascii) :=
  match rev cs with
  | c :: t => if Ascii.eqb c newline then Some (rev t) else None
  | [] => None
  end.

(** [re.match("^" r "$", s)] as a boolean: the pattern is anchored at the
    start, and [$] matches at the end of the string and also just before a
    newline that ends the string. *)
Definition match_dollar (r : regex) (s : string) : bool :=
  fullmatch r (Str.chars s)
  || match before_final_newline (Str.chars s) with
     | Some cs => fullmatch r cs
     | None => false
     end.

(** The words the expression denotes. *)
Inductive lang : regex -> list ascii -> Prop :=
| lang_eps : lang Eps []
| lang_class p c : p c = true -> lang (Class p) [c]
| lang_cat r1 r2 u v : lang r1 u -> lang r2 v -> lang (Cat r1 r2) (u ++ v)
| lang_alt_l r1 r2 u : lang r1 u -> lang (Alt r1 r2) u
| lang_alt_r r1 r2 u : lang r2 u -> lang (Alt r1 r2) u
| lang_star_nil r : lang (Star r) []
| lang_star_app r u v : lang r u -> lang (Star r) v -> lang (Star r) (u ++ v).

End Re.

(** ** Python values and exceptions *)

Set Warnings "-register-all".

Inductive json : Type :=
| JNull
| JBool (b : bool)
| JInt (n : Z)
| JFloat (x : Float.float)
| JStr (s : string)
| JList (items : list json)
| JObj (fields : list (string * json)).

Definition dict : Type := list (string * json).

Inductive exn : Type := TypeError | OverflowError | AttributeError.

Inductive result (A : Type) : Type :=
| Return (a : A)
| Raise (e : exn).
Arguments Return {A} a.
Arguments Raise {A} e.

Definition bind {A B : Type} (m : result A) (k : A -> result B) : result B :=
  match m with
  | Return a => k a
  | Raise e => Raise e
  end.

Notation "x <- m ;; k" := (bind m (fun x => k))
  (at level 61, m at next level, right associativity).

Module Py.

(** [d.get(key)]: the value bound to [key], [None] when there is none. *)
Fixpoint lookup (key : string) (d : dict) : option json :=
  match d with
  | [] => None
  | (k, v) :: d' => if String.eqb key k then Some v else lookup key d'
  end.

Definition get (d : dict) (key : string) : json :=
  match lookup key d with
  | Some v => v
  | None => JNull
  end.

(** The views [isinstance] opens on a value. [bool] is a subclass of
    [int]: [True] is the integer 1 and [False] the integer 0. *)
Definition as_int (v : json) : option Z :=
  match v with
  | JInt n => Some n
  | JBool b => Some (if b then 1 else 0)
  | _ => None
  end.

Definition as_str (v : json) : option string :=
  match v with
  | JStr s => Some s
  | _ => None
  end.

Inductive number : Type :=
| NInt (n : Z)
| NFloat (x : Float.float).

(** [isinstance(v, (int, float))] *)
Definition as_number (v : json) : option number :=
  match v with
  | JFloat x => Some (NFloat x)
  | _ => match as_int v with
         | Some n => Some (NInt n)
         | None => None
         end
  end.

Definition is_some {A : Type} (o : option A) : bool :=
  match o with Some _ => true | None => false end.

(** [isinstance(v, str) and not test(v)] and the like: the test is only
    made on a value of the type. *)
Definition and_then {A : Type} (view : option A) (test : A -> bool) : bool :=
  match view with
  | Some a => test a
  | None => false
  end.

Definition isinstance_int (v : json) : bool := is_some (as_int v).
Definition isinstance_str (v : json) : bool := is_some (as_str v).
Definition isinstance_number (v : json) : bool := is_some (as_number v).

(** [a <= 0]; a NaN compares false. *)
Definition le_zero (a : number) : bool :=
  match a with
  | NInt n => n <=? 0
  | NFloat x => Float.leb x Float.zero
  end.

(** [float(a)]: an integer converts to the nearest double and raises
    [OverflowError] when that is out of range. *)
Definition float_of_number (a : number) : result Float.float :=
  match a with
  | NFloat x => Return x
  | NInt n =>
      match Float.of_Z n with
      | S754_infinity _ => Raise OverflowError
      | x => Return x
      end
  end.

(** [float(v)] on a number. On [None], a list or a dict Python raises
    [TypeError]; so does the model on a string, which Python would parse:
    the handler converts numbers only. *)
Definition float (v : json) : result Float.float :=
  match as_number v with
  | Some a => float_of_number a
  | None => Raise TypeError
  end.

(** A method of [str] called on a value: [AttributeError] when the value
    is not a string. *)
Definition str_method (f : string -> string) (v : json) : result string :=
  match as_str v with
  | Some s => Return (f s)
  | None => Raise AttributeError
  end.

(** Lists and dicts are unhashable: asking a set about one raises
    [TypeError]. *)
Definition hashable (v : json) : bool :=
  match v with
  | JList _ | JObj _ => false
  | _ => true
  end.

(** [v in set] for a hashable [v] and a set of strings: only an equal
    string is a member. *)
Definition in_set (v : json) (set : list string) : bool :=
  and_then (as_str v) (fun s => Str.mem s set).

(** [v == s] for a string [s]. *)
Definition eq_str (v : json) (s : string) : bool :=
  and_then (as_str v) (fun t => String.eqb t s).

Fixpoint repr (v : json) : string :=
  match v with
  | JNull => "None"
  | JBool b => if b then "True" else "False"
  | JInt n => NilZero.string_of_int (Z.to_int n)
  | JFloat x => Float.repr x
  | JStr s => Str.repr s
  | JList items => "[" ++ Str.join ", " (map repr items) ++ "]"
  | JObj fields =>
      "{" ++ Str.join ", "
               (map (fun kv => match kv with
                               | (k, w) => Str.repr k ++ ": " ++ repr w
                               end) fields)
      ++ "}"
  end.

(** [str(v)], what [f"{v}"] interpolates. *)
Definition str (v : json) : string :=
  match v with
  | JStr s => s
  | _ => repr v
  end.

End Py.

(** ** The handler (src/handler.py) *)

Definition ALLOWED_TYPES : list string := ["USER_SIGNUP"; "PAYMENT"; "FILE_UPLOAD"].

Definition _err (msgs : list string) : json :=
  JObj [("status", JStr "error");
        ("message", JStr "Event rejected");
        ("data", JNull);
        ("errors", JList (map JStr msgs))].

Definition _ok (message : string) (data : dict) : json :=
  JObj [("status", JStr "ok");
        ("message", JStr message);
        ("data", JObj data);
        ("errors", JList [])].

Definition ok_char (c : ascii) : bool :=
  negb (Ascii.eqb c "@") && negb (Str.is_space c).

(** The expression between the anchors of
    [^[^@\s]+@[^@\s]+\.[^@\s]+$]. *)
Definition email_regex : Re.regex :=
  Re.Cat (Re.Plus (Re.Class ok_char))
    (Re.Cat (Re.Lit "@")
       (Re.Cat (Re.Plus (Re.Class ok_char))
          (Re.Cat (Re.Lit ".") (Re.Plus (Re.Class ok_char))))).

Definition _is_email (value : string) : bool :=
  Re.match_dollar email_regex value.

(** [if cond: errors.append(msg)] *)
Definition append_if (cond : bool) (msg : string) (errors : list string)
  : list string :=
  if cond then errors ++ [msg] else errors.

(** [plan.lower()] and [currency.upper()] under [if isinstance(_, str)]. *)
Definition normalize_if_str (f : string -> string) (v : json) : json :=
  match Py.as_str v with
  | Some s => JStr (f s)
  | None => v
  end.

Definition signup_errors (event : dict) : list string :=
  let user_id := Py.get event "user_id" in
  let email := Py.get event "email" in
  let plan := Py.get event "plan" in
  let errors := [] in
  let errors := append_if (negb (Py.isinstance_int user_id))
                  "user_id must be an integer" errors in
  let errors := append_if (negb (Py.isinstance_str email))
                  "email must be a string" errors in
  let errors := append_if (negb (Py.isinstance_str plan))
                  "plan must be a string" errors in
  let errors := append_if (Py.and_then (Py.as_str email) (fun s => negb (_is_email s)))
                  "Invalid email format" errors in
  let plan := normalize_if_str Str.lower plan in
  let errors := append_if
                  (Py.and_then (Py.as_str plan)
                     (fun s => negb (Str.mem s ["free"; "pro"; "edu"])))
                  "Invalid plan value" errors in
  errors.

Definition handle_user_signup (event : dict) : result json :=
  let user_id := Py.get event "user_id" in
  let email := Py.get event "email" in
  let plan := Py.get event "plan" in
  let errors := signup_errors event in
  let plan := normalize_if_str Str.lower plan in
  match errors with
  | _ :: _ => Return (_err errors)
  | [] =>
      email_lower <- Py.str_method Str.lower email ;;
      Return (_ok "Signup processed"
                [("user_id", user_id);
                 ("email", JStr email_lower);
                 ("plan", plan);
                 ("welcome_email_subject",
                  JStr ("Welcome to the " ++ Py.str plan ++ " plan!"))])
  end.

Definition payment_errors (event : dict) : list string :=
  let payment_id := Py.get event "payment_id" in
  let user_id := Py.get event "user_id" in
  let amount := Py.get event "amount" in
  let currency := Py.get event "currency" in
  let errors := [] in
  let errors := append_if (negb (Py.isinstance_str payment_id))
                  "payment_id must be a string" errors in
  let errors := append_if (negb (Py.isinstance_int user_id))
                  "user_id must be an integer" errors in
  let errors := append_if (negb (Py.isinstance_number amount))
                  "amount must be a number" errors in
  let errors := append_if (negb (Py.isinstance_str currency))
                  "currency must be a string" errors in
  let errors := append_if (Py.and_then (Py.as_number amount) Py.le_zero)
                  "amount must be greater than 0" errors in
  let currency := normalize_if_str Str.upper currency in
  let errors := append_if
                  (Py.and_then (Py.as_str currency)
                     (fun s => negb (Str.mem s ["BHD"; "USD"; "EUR"])))
                  "Unsupported currency" errors in
  errors.

(** The literal [0.02]. *)
Definition fee_rate : Float.float := Float.of_decimal 2 2.

Definition handle_payment (event : dict) : result json :=
  let payment_id := Py.get event "payment_id" in
  let user_id := Py.get event "user_id" in
  let amount := Py.get event "amount" in
  let currency := Py.get event "currency" in
  let errors := payment_errors event in
  let currency := normalize_if_str Str.upper currency in
  match errors with
  | _ :: _ => Return (_err errors)
  | [] =>
      amount_float <- Py.float amount ;;
      let amount := Float.round amount_float 3 in
      let fee := Float.round (Float.mul amount fee_rate) 3 in
      let net_amount := Float.round (Float.sub amount fee) 3 in
      Return (_ok "Payment processed"
                [("payment_id", payment_id);
                 ("user_id", user_id);
                 ("amount", JFloat amount);
                 ("currency", currency);
                 ("fee", JFloat fee);
                 ("net_amount", JFloat net_amount)])
  end.

Definition upload_errors (event : dict) : list string :=
  let file_name := Py.get event "file_name" in
  let size_bytes := Py.get event "size_bytes" in
  let bucket := Py.get event "bucket" in
  let uploader := Py.get event "uploader" in
  let errors := [] in
  let errors := append_if (negb (Py.isinstance_str file_name))
                  "file_name must be a string" errors in
  let errors := append_if (negb (Py.isinstance_int size_bytes))
                  "size_bytes must be an integer" errors in
  let errors := append_if (Py.and_then (Py.as_int size_bytes) (fun n => n <? 0))
                  "size_bytes must be >= 0" errors in
  let errors := append_if (negb (Py.isinstance_str bucket))
                  "bucket must be a string" errors in
  let errors := append_if (negb (Py.isinstance_str uploader))
                  "uploader must be a string" errors in
  let errors := append_if
                  (Py.and_then (Py.as_str uploader) (fun s => negb (_is_email s)))
                  "Invalid uploader email" errors in
  errors.

Definition storage_class_of (size_bytes : Z) : string :=
  if size_bytes <? 1000000 then "STANDARD"
  else if size_bytes <? 50000000 then "STANDARD_IA"
  else "GLACIER".

(** The chain [if size_bytes < 1_000_000 ... elif size_bytes < 50_000_000]:
    a comparison with an integer raises [TypeError] on a value that is not
    a number, and is false on a NaN. *)
Definition storage_class (size_bytes : json) : result string :=
  match Py.as_number size_bytes with
  | Some (Py.NInt n) => Return (storage_class_of n)
  | Some (Py.NFloat x) =>
      Return (if Float.ltb x (Float.of_Z 1000000) then "STANDARD"
              else if Float.ltb x (Float.of_Z 50000000) then "STANDARD_IA"
              else "GLACIER")
  | None => Raise TypeError
  end.

Definition handle_file_upload (event : dict) : result json :=
  let file_name := Py.get event "file_name" in
  let size_bytes := Py.get event "size_bytes" in
  let bucket := Py.get event "bucket" in
  let uploader := Py.get event "uploader" in
  let errors := upload_errors event in
  match errors with
  | _ :: _ => Return (_err errors)
  | [] =>
      file_name <- Py.str_method Str.strip file_name ;;
      bucket <- Py.str_method Str.lower bucket ;;
      uploader <- Py.str_method Str.lower uploader ;;
      storage_class <- storage_class size_bytes ;;
      Return (_ok "Upload processed"
                [("file_name", JStr file_name);
                 ("size_bytes", size_bytes);
                 ("bucket", JStr bucket);
                 ("uploader", JStr uploader);
                 ("storage_class", JStr storage_class)])
  end.

Definition handler (event : json) (context : option json) : result json :=
  match event with
  | JObj fields =>
      match Py.lookup "type" fields with
      | None => Return (_err ["Missing 'type' field"])
      | Some event_type =>
          if negb (Py.hashable event_type) then Raise TypeError
          else if negb (Py.in_set event_type ALLOWED_TYPES) then
            Return (_err ["Unsupported event type: " ++ Py.str event_type])
          else if Py.eq_str event_type "USER_SIGNUP" then
            handle_user_signup fields
          else if Py.eq_str event_type "PAYMENT" then
            handle_payment fields
          else if Py.eq_str event_type "FILE_UPLOAD" then
            handle_file_upload fields
          else Return (_err ["Unhandled event type"])
      end
  | _ => Return (_err ["Event must be a dictionary"])
  end.

(** ** Reading an envelope *)

Definition keys (v : json) : list string :=
  match v with
  | JObj fields => map fst fields
  | _ => []
  end.

Definition field (key : string) (v : json) : json :=
  match v with
  | JObj fields => Py.get fields key
  | _ => JNull
  end.

(** The messages of the [errors] entry. *)
Definition errors_of (env : json) : option (list json) :=
  match field "errors" env with
  | JList items => Some items
  | _ => None
  end.

(** The response envelope of the specification: the four keys, a status
    that is [ok] or [error], and [ok], an empty error list and non-null
    data going together. *)
Definition well_formed (env : json) : Prop :=
  keys env = ["status"; "message"; "data"; "errors"]
  /\ (field "status" env = JStr "ok" \/ field "status" env = JStr "error")
  /\ (exists items, errors_of env = Some items)
  /\ (field "status" env = JStr "ok" <-> errors_of env = Some [])
  /\ (errors_of env = Some [] <-> field "data" env <> JNull)
  /\ (field "status" env = JStr "ok" <-> field "data" env <> JNull)
  /\ (field "status" env = JStr "error" <-> field "data" env = JNull)
  /\ (field "data" env = JNull <-> errors_of env <> Some []).

(** The two shapes [_err] and [_ok] build; [_err] is only ever called with
    at least one message. *)
Inductive envelope : json -> Prop :=
| envelope_err msg msgs : envelope (_err (msg :: msgs))
| envelope_ok message data : envelope (_ok message data).

(** The messages whose condition holds, in the order of the table. *)
Definition select (table : list (bool * string)) : list string :=
  map snd (filter fst table).

(** *** The error lists as tables *)

Definition signup_table (event : dict) : list (bool * string) :=
  let user_id := Py.get event "user_id" in
  let email := Py.get event "email" in
  let plan := Py.get event "plan" in
  [ (negb (Py.isinstance_int user_id), "user_id must be an integer");
    (negb (Py.isinstance_str email), "email must be a string");
    (negb (Py.isinstance_str plan), "plan must be a string");
    (Py.and_then (Py.as_str email) (fun s => negb (_is_email s)),
     "Invalid email format");
    (Py.and_then (Py.as_str plan)
       (fun s => negb (Str.mem (Str.lower s) ["free"; "pro"; "edu"])),
     "Invalid plan value") ].

Definition payment_table (event : dict) : list (bool * string) :=
  let payment_id := Py.get event "payment_id" in
  let user_id := Py.get event "user_id" in
  let amount := Py.get event "amount" in
  let currency := Py.get event "currency" in
  [ (negb (Py.isinstance_str payment_id), "payment_id must be a string");
    (negb (Py.isinstance_int user_id), "user_id must be an integer");
    (negb (Py.isinstance_number amount), "amount must be a number");
    (negb (Py.isinstance_str currency), "currency must be a string");
    (Py.and_then (Py.as_number amount) Py.le_zero,
     "amount must be greater than 0");
    (Py.and_then (Py.as_str currency)
       (fun s => negb (Str.mem (Str.upper s) ["BHD"; "USD"; "EUR"])),
     "Unsupported currency") ].

(** The table of the file-upload checks, in the order and with the guards
    of the specification: each row is a check and its message; the range
    check on [size_bytes] and the format check on [uploader] are only made
    on a value that passed its type check. *)
Definition upload_table (event : dict) : list (bool * string) :=
  let file_name := Py.get event "file_name" in
  let size_bytes := Py.get event "size_bytes" in
  let bucket := Py.get event "bucket" in
  let uploader := Py.get event "uploader" in
  [ (negb (Py.isinstance_str file_name), "file_name must be a string");
    (negb (Py.isinstance_int size_bytes), "size_bytes must be an integer");
    (Py.isinstance_int size_bytes
     && Py.and_then (Py.as_int size_bytes) (fun n => negb (0 <=? n)),
     "size_bytes must be >= 0");
    (negb (Py.isinstance_str bucket), "bucket must be a string");
    (negb (Py.isinstance_str uploader), "uploader must be a string");
    (Py.isinstance_str uploader
     && Py.and_then (Py.as_str uploader) (fun s => negb (_is_email s)),
     "Invalid uploader email") ].

(** *** Events that pass validation *)

Definition signup_valid (event : dict) : bool :=
  Py.isinstance_int (Py.get event "user_id")
  && Py.and_then (Py.as_str (Py.get event "email")) _is_email
  && Py.and_then (Py.as_str (Py.get event "plan"))
       (fun s => Str.mem (Str.lower s) ["free"; "pro"; "edu"]).

Definition payment_valid (event : dict) : bool :=
  Py.isinstance_str (Py.get event "payment_id")
  && Py.isinstance_int (Py.get event "user_id")
  && Py.and_then (Py.as_number (Py.get event "amount"))
       (fun a => negb (Py.le_zero a))
  && Py.and_then (Py.as_str (Py.get event "currency"))
       (fun s => Str.mem (Str.upper s) ["BHD"; "USD"; "EUR"]).

Definition upload_valid (event : dict) : bool :=
  Py.isinstance_str (Py.get event "file_name")
  && Py.and_then (Py.as_int (Py.get event "size_bytes")) (fun n => 0 <=? n)
  && Py.isinstance_str (Py.get event "bucket")
  && Py.and_then (Py.as_str (Py.get event "uploader")) _is_email.

(** *** The email check in words *)

(** The text before the first occurrence of [sep] and the text after it. *)
Fixpoint split_at (sep : ascii) (cs : list ascii)
  : option (list ascii * list ascii) :=
  match cs with
  | [] => None
  | c :: rest =>
      if Ascii.eqb c sep then Some ([], rest)
      else match split_at sep rest with
           | Some (before, after) => Some (c :: before, after)
           | None => None
           end
  end.

Definition is_nil {A : Type} (l : list A) : bool :=
  match l with [] => true | _ :: _ => false end.

Definition has_char (c : ascii) (cs : list ascii) : bool :=
  existsb (Ascii.eqb c) cs.

(** A ['.'] with at least one character after it. *)
Fixpoint dot_before_end (cs : list ascii) : bool :=
  match cs with
  | [] => false
  | c :: rest => (Ascii.eqb c "." && negb (is_nil rest)) || dot_before_end rest
  end.

(** A ['.'] with at least one character of the text before it and at least
    one after it. *)
Definition inner_dot (cs : list ascii) : bool :=
  match cs with
  | [] => false
  | _ :: rest => dot_before_end rest
  end.

(** The pattern as the specification words it: exactly one ['@'], text
    before it and text after it, no whitespace anywhere, and a ['.']
    somewhere in the text after the ['@']. *)
Definition email_prose (s : string) : bool :=
  match split_at "@" (Str.chars s) with
  | Some (local, domain) =>
      negb (has_char "@" domain)
      && negb (is_nil local)
      && negb (is_nil domain)
      && negb (existsb Str.is_space (Str.chars s))
      && has_char "." domain
  | None => false
  end.

(** The pattern of the expression: as [email_prose], but the ['.'] has at
    least one character of the domain on each side. *)
Definition email_shape (cs : list ascii) : bool :=
  match split_at "@" cs with
  | Some (local, domain) =>
      negb (has_char "@" domain)
      && negb (is_nil local)
      && negb (existsb Str.is_space cs)
      && inner_dot domain
  | None => false
  end.

(** Three runs of characters that are neither ['@'] nor whitespace, with
    ['@'] after the first and ['.'] after the second. *)
Definition three_parts (cs : list ascii) : Prop :=
  exists u v w,
    cs = (u ++ "@"%char :: v ++ "."%char :: w)%list
    /\ u <> [] /\ v <> [] /\ w <> []
    /\ forallb ok_char u = true
    /\ forallb ok_char v = true
    /\ forallb ok_char w = true.

(** Is the last character a newline? *)
Definition ends_with_newline (s : string) : bool :=
  Py.is_some (Re.before_final_newline (Str.chars s)).

(** The required fields of each kind of event, each with the message of
    its type check. *)
Definition required_fields (kind : string) : list (string * string) :=
  if String.eqb kind "USER_SIGNUP" then
    [("user_id", "user_id must be an integer");
     ("email", "email must be a string");
     ("plan", "plan must be a string")]
  else if String.eqb kind "PAYMENT" then
    [("payment_id", "payment_id must be a string");
     ("user_id", "user_id must be an integer");
     ("amount", "amount must be a number");
     ("currency", "currency must be a string")]
  else if String.eqb kind "FILE_UPLOAD" then
    [("file_name", "file_name must be a string");
     ("size_bytes", "size_bytes must be an integer");
     ("bucket", "bucket must be a string");
     ("uploader", "uploader must be a string")]
  else [].



(** *** Sample events *)

(** Scenarios 1 and 2 of the specification. *)
Definition signup_scenario : json :=
  JObj [("type", JStr "USER_SIGNUP"); ("user_id", JInt 7);
        ("email", JStr "A@B.com"); ("plan", JStr "PRO")].

Definition payment_event (amount : json) : json :=
  JObj [("type", JStr "PAYMENT"); ("payment_id", JStr "p1");
        ("user_id", JInt 1); ("amount", amount); ("currency", JStr "usd")].


(** Scenario 4, with the size left open. *)
Definition upload_event (size_bytes : Z) : json :=
  JObj [("type", JStr "FILE_UPLOAD"); ("file_name", JStr " a.txt ");
        ("size_bytes", JInt size_bytes); ("bucket", JStr "B");
        ("uploader", JStr "U@X.com")].

(** A file upload with no file name, a negative size, no bucket and an
    uploader that is not an address. *)
Definition bad_upload : json :=
  JObj [("type", JStr "FILE_UPLOAD"); ("size_bytes", JInt (-1));
        ("uploader", JStr "nobody")].

(** Does the envelope list the message among its errors? *)
Definition reports (env : json) (msg : string) : Prop :=
  exists items, errors_of env = Some items /\ In (JStr msg) items.

(** *** Further notions about events and envelopes *)

(** The keys [handler] reads in an event of the kind. *)
Definition keys_read (kind : string) : list string :=
  "type" :: map fst (required_fields kind).

(** The data of a success envelope sent back as an event of the kind. *)
Definition tagged (kind : string) (data : dict) : json :=
  JObj (("type", JStr kind) :: data).

Definition head_is_space (cs : list ascii) : bool :=
  match cs with
  | c :: _ => Str.is_space c
  | [] => false
  end.

(** Neither the first nor the last character is whitespace. *)
Definition trimmed (s : string) : bool :=
  negb (head_is_space (Str.chars s))
  && negb (head_is_space (rev (Str.chars s))).

(** A positive finite float below half a thousandth. *)
Definition below_half_thousandth (x : Float.float) : bool :=
  match x with
  | S754_finite false m e =>
      let '(n, d) := Float.scaled m e 3 in 2 * n <? Zpos d
  | _ => false
  end.

(** The items are strings, no two of them equal, and at most [bound] in
    number. *)
Definition distinct_strings (bound : nat) (items : list json) : Prop :=
  exists msgs : list string,
    items = map JStr msgs /\ NoDup msgs /\ (List.length msgs <= bound)%nat.

(** ** Proofs *)

Lemma envelope_well_formed env : envelope env -> well_formed env.
Proof.
  intros [msg msgs | message data]; unfold well_formed, errors_of; cbn;
    repeat apply conj;
    solve [ reflexivity
          | right; reflexivity
          | left; reflexivity
          | eexists; reflexivity
          | intros; congruence
          | intros H; discriminate H
          | intros H; exfalso; apply H; reflexivity
          | intros _ H; discriminate H ].
Qed.

Lemma append_if_select cond msg errors :
  append_if cond msg errors = (errors ++ select [(cond, msg)])%list.
Proof.
  unfold append_if, select; destruct cond; cbn; auto using app_nil_r.
Qed.

Lemma select_app t1 t2 :
  select (t1 ++ t2)%list = (select t1 ++ select t2)%list.
Proof.
  unfold select. now rewrite filter_app, map_app.
Qed.

Lemma select_nil table :
  select table = [] -> forall c m, In (c, m) table -> c = false.
Proof.
  induction table as [| [c' m'] table IH]; cbn; intros Hnil c m Hin.
  - contradiction.
  - unfold select in *. cbn in Hnil. destruct c'; cbn in Hnil.
    + discriminate.
    + destruct Hin as [Heq | Hin]; [congruence | eauto].
Qed.

Lemma select_In table m :
  In m (select table) <-> In (true, m) table.
Proof.
  unfold select. rewrite in_map_iff. split.
  - intros [[c m'] [Hm Hin]]. apply filter_In in Hin as [Hin Hc].
    cbn in *. subst. exact Hin.
  - intros Hin. exists (true, m). split; auto. apply filter_In. auto.
Qed.

Lemma normalize_and_then f v test :
  Py.and_then (Py.as_str (normalize_if_str f v)) test
  = Py.and_then (Py.as_str v) (fun s => test (f s)).
Proof.
  unfold normalize_if_str. destruct v; reflexivity.
Qed.

Lemma signup_errors_table event :
  signup_errors event = select (signup_table event).
Proof.
  unfold signup_errors, signup_table.
  rewrite !append_if_select, normalize_and_then. cbn [app].
  rewrite <- !select_app. reflexivity.
Qed.

Lemma payment_errors_table event :
  payment_errors event = select (payment_table event).
Proof.
  unfold payment_errors, payment_table.
  rewrite !append_if_select, normalize_and_then. cbn [app].
  rewrite <- !select_app. reflexivity.
Qed.

Lemma guarded_view {A : Type} (view : option A) (test : A -> bool) :
  Py.is_some view && Py.and_then view test = Py.and_then view test.
Proof.
  destruct view; reflexivity.
Qed.

Lemma and_then_ext {A : Type} (view : option A) (f g : A -> bool) :
  (forall a, f a = g a) -> Py.and_then view f = Py.and_then view g.
Proof.
  intros Hfg. destruct view; cbn; auto.
Qed.

Lemma upload_errors_table event :
  upload_errors event = select (upload_table event).
Proof.
  unfold upload_errors, upload_table, Py.isinstance_int, Py.isinstance_str.
  rewrite !append_if_select, !guarded_view. cbn [app].
  rewrite <- !select_app. cbn [app].
  rewrite (and_then_ext _ (fun n => n <? 0) (fun n => negb (0 <=? n)))
    by (intros; apply Z.ltb_antisym).
  reflexivity.
Qed.

Lemma select_nil_iff table :
  select table = [] <-> forallb (fun row => negb (fst row)) table = true.
Proof.
  unfold select. induction table as [| [c m] table IH]; cbn.
  - tauto.
  - destruct c; cbn.
    + split; discriminate.
    + exact IH.
Qed.

Ltac calm := cbn -[Str.mem _is_email Py.le_zero Z.leb Z.ltb].

Ltac open_views :=
  unfold Py.isinstance_int, Py.isinstance_str, Py.isinstance_number,
    Py.is_some, Py.and_then.

Ltac split_bools :=
  repeat match goal with
         | |- context [Py.as_int ?v] => destruct (Py.as_int v); calm
         | |- context [Py.as_str ?v] => destruct (Py.as_str v); calm
         | |- context [Py.as_number ?v] => destruct (Py.as_number v); calm
         | |- context [_is_email ?s] => destruct (_is_email s); calm
         | |- context [Str.mem ?s ?set] => destruct (Str.mem s set); calm
         | |- context [Py.le_zero ?a] => destruct (Py.le_zero a); calm
         | |- context [?a <=? ?b] => destruct (a <=? b); calm
         end;
  try tauto; try (split; congruence).

Lemma signup_errors_nil event :
  signup_errors event = [] <-> signup_valid event = true.
Proof.
  rewrite signup_errors_table, select_nil_iff.
  unfold signup_table, signup_valid. open_views. calm.
  split_bools.
Qed.

Lemma payment_errors_nil event :
  payment_errors event = [] <-> payment_valid event = true.
Proof.
  rewrite payment_errors_table, select_nil_iff.
  unfold payment_table, payment_valid. open_views. calm.
  split_bools.
Qed.

Lemma upload_errors_nil event :
  upload_errors event = [] <-> upload_valid event = true.
Proof.
  rewrite upload_errors_table, select_nil_iff.
  unfold upload_table, upload_valid. open_views. calm.
  split_bools.
Qed.

(** *** What each validator returns *)

Lemma as_str_inv v s : Py.as_str v = Some s -> v = JStr s.
Proof.
  destruct v; cbn; congruence.
Qed.

Lemma as_number_int v n :
  Py.as_int v = Some n -> Py.as_number v = Some (Py.NInt n).
Proof.
  destruct v; cbn; congruence.
Qed.

Lemma and_then_inv {A : Type} (view : option A) test :
  Py.and_then view test = true -> exists a, view = Some a /\ test a = true.
Proof.
  destruct view as [a |]; cbn; [eauto | discriminate].
Qed.

Lemma is_some_inv {A : Type} (view : option A) :
  Py.is_some view = true -> exists a, view = Some a.
Proof.
  destruct view as [a |]; cbn; [eauto | discriminate].
Qed.

Lemma signup_rejected event msg msgs :
  signup_errors event = msg :: msgs ->
  handle_user_signup event = Return (_err (msg :: msgs)).
Proof.
  intros H. unfold handle_user_signup. now rewrite H.
Qed.

Lemma payment_rejected event msg msgs :
  payment_errors event = msg :: msgs ->
  handle_payment event = Return (_err (msg :: msgs)).
Proof.
  intros H. unfold handle_payment. now rewrite H.
Qed.

Lemma upload_rejected event msg msgs :
  upload_errors event = msg :: msgs ->
  handle_file_upload event = Return (_err (msg :: msgs)).
Proof.
  intros H. unfold handle_file_upload. now rewrite H.
Qed.

Lemma signup_accepted event :
  signup_valid event = true ->
  exists email plan,
    Py.get event "email" = JStr email
    /\ Py.get event "plan" = JStr plan
    /\ handle_user_signup event
       = Return (_ok "Signup processed"
                   [("user_id", Py.get event "user_id");
                    ("email", JStr (Str.lower email));
                    ("plan", JStr (Str.lower plan));
                    ("welcome_email_subject",
                     JStr ("Welcome to the " ++ Str.lower plan ++ " plan!"))]).
Proof.
  intros Hvalid. pose proof (proj2 (signup_errors_nil event) Hvalid) as Hnil.
  unfold signup_valid in Hvalid.
  apply andb_prop in Hvalid as [Hvalid Hplan].
  apply andb_prop in Hvalid as [_ Hemail].
  apply and_then_inv in Hemail as (email & Hemail & _).
  apply and_then_inv in Hplan as (plan & Hplan & _).
  apply as_str_inv in Hemail, Hplan.
  exists email, plan. repeat split; auto.
  unfold handle_user_signup. rewrite Hnil, Hemail, Hplan. reflexivity.
Qed.

Lemma payment_accepted event :
  payment_valid event = true ->
  exists currency,
    Py.get event "currency" = JStr currency
    /\ handle_payment event
       = (x <- Py.float (Py.get event "amount") ;;
          let amount := Float.round x 3 in
          let fee := Float.round (Float.mul amount fee_rate) 3 in
          let net_amount := Float.round (Float.sub amount fee) 3 in
          Return (_ok "Payment processed"
                    [("payment_id", Py.get event "payment_id");
                     ("user_id", Py.get event "user_id");
                     ("amount", JFloat amount);
                     ("currency", JStr (Str.upper currency));
                     ("fee", JFloat fee);
                     ("net_amount", JFloat net_amount)])).
Proof.
  intros Hvalid. pose proof (proj2 (payment_errors_nil event) Hvalid) as Hnil.
  unfold payment_valid in Hvalid.
  apply andb_prop in Hvalid as [_ Hcur].
  apply and_then_inv in Hcur as (currency & Hcur & _).
  apply as_str_inv in Hcur.
  exists currency. split; auto.
  unfold handle_payment. rewrite Hnil, Hcur. reflexivity.
Qed.

Lemma upload_accepted event :
  upload_valid event = true ->
  exists file_name size bucket uploader,
    Py.get event "file_name" = JStr file_name
    /\ Py.as_int (Py.get event "size_bytes") = Some size
    /\ 0 <= size
    /\ Py.get event "bucket" = JStr bucket
    /\ Py.get event "uploader" = JStr uploader
    /\ handle_file_upload event
       = Return (_ok "Upload processed"
                   [("file_name", JStr (Str.strip file_name));
                    ("size_bytes", Py.get event "size_bytes");
                    ("bucket", JStr (Str.lower bucket));
                    ("uploader", JStr (Str.lower uploader));
                    ("storage_class", JStr (storage_class_of size))]).
Proof.
  intros Hvalid. pose proof (proj2 (upload_errors_nil event) Hvalid) as Hnil.
  unfold upload_valid in Hvalid.
  apply andb_prop in Hvalid as [Hvalid Hup].
  apply andb_prop in Hvalid as [Hvalid Hbucket].
  apply andb_prop in Hvalid as [Hname Hsize].
  apply is_some_inv in Hname as (file_name & Hname).
  apply is_some_inv in Hbucket as (bucket & Hbucket).
  apply and_then_inv in Hsize as (size & Hsize & Hpos).
  apply and_then_inv in Hup as (uploader & Hup & _).
  pose proof (as_str_inv _ _ Hname) as Ename.
  pose proof (as_str_inv _ _ Hbucket) as Ebucket.
  pose proof (as_str_inv _ _ Hup) as Eup.
  exists file_name, size, bucket, uploader.
  repeat split; auto.
  - now apply Z.leb_le.
  - unfold handle_file_upload, storage_class.
    rewrite Hnil, (as_number_int _ _ Hsize), Ename, Ebucket, Eup.
    reflexivity.
Qed.

Lemma signup_envelope event env :
  handle_user_signup event = Return env -> envelope env.
Proof.
  destruct (signup_errors event) as [| msg msgs] eqn:Herrors.
  - apply signup_errors_nil, signup_accepted in Herrors
      as (email & plan & _ & _ & Hok).
    rewrite Hok. intros [= <-]. constructor.
  - rewrite (signup_rejected _ _ _ Herrors). intros [= <-]. constructor.
Qed.

Lemma payment_envelope event env :
  handle_payment event = Return env -> envelope env.
Proof.
  destruct (payment_errors event) as [| msg msgs] eqn:Herrors.
  - apply payment_errors_nil, payment_accepted in Herrors
      as (currency & _ & Hok).
    rewrite Hok. destruct (Py.float _); cbn.
    + intros [= <-]. constructor.
    + discriminate.
  - rewrite (payment_rejected _ _ _ Herrors). intros [= <-]. constructor.
Qed.

Lemma upload_envelope event env :
  handle_file_upload event = Return env -> envelope env.
Proof.
  destruct (upload_errors event) as [| msg msgs] eqn:Herrors.
  - apply upload_errors_nil, upload_accepted in Herrors
      as (f & n & b & u & _ & _ & _ & _ & _ & Hok).
    rewrite Hok. intros [= <-]. constructor.
  - rewrite (upload_rejected _ _ _ Herrors). intros [= <-]. constructor.
Qed.

(** *** The dispatcher *)

Lemma handler_not_dict event context :
  (forall fields, event <> JObj fields) ->
  handler event context = Return (_err ["Event must be a dictionary"]).
Proof.
  intros Hnot. destruct event; try reflexivity. now destruct (Hnot fields).
Qed.

Lemma handler_missing_type fields context :
  Py.lookup "type" fields = None ->
  handler (JObj fields) context = Return (_err ["Missing 'type' field"]).
Proof.
  intros H. cbn. now rewrite H.
Qed.

Lemma handler_unhashable_type fields context event_type :
  Py.lookup "type" fields = Some event_type ->
  Py.hashable event_type = false ->
  handler (JObj fields) context = Raise TypeError.
Proof.
  intros H Hhash. cbn. now rewrite H, Hhash.
Qed.

Lemma handler_unsupported_type fields context event_type :
  Py.lookup "type" fields = Some event_type ->
  Py.hashable event_type = true ->
  Py.in_set event_type ALLOWED_TYPES = false ->
  handler (JObj fields) context
  = Return (_err ["Unsupported event type: " ++ Py.str event_type]).
Proof.
  intros H Hhash Hin. cbn -[Py.in_set Py.str]. now rewrite H, Hhash, Hin.
Qed.

Lemma handler_signup fields context :
  Py.lookup "type" fields = Some (JStr "USER_SIGNUP") ->
  handler (JObj fields) context = handle_user_signup fields.
Proof.
  intros H. cbn -[handle_user_signup]. now rewrite H.
Qed.

Lemma handler_payment fields context :
  Py.lookup "type" fields = Some (JStr "PAYMENT") ->
  handler (JObj fields) context = handle_payment fields.
Proof.
  intros H. cbn -[handle_payment]. now rewrite H.
Qed.

Lemma handler_upload fields context :
  Py.lookup "type" fields = Some (JStr "FILE_UPLOAD") ->
  handler (JObj fields) context = handle_file_upload fields.
Proof.
  intros H. cbn -[handle_file_upload]. now rewrite H.
Qed.

(** A member of [ALLOWED_TYPES] is one of the three names. *)
Lemma in_allowed_types v :
  Py.in_set v ALLOWED_TYPES = true ->
  v = JStr "USER_SIGNUP" \/ v = JStr "PAYMENT" \/ v = JStr "FILE_UPLOAD".
Proof.
  unfold Py.in_set. intros H.
  apply and_then_inv in H as (s & Hs & Hmem). apply as_str_inv in Hs. subst v.
  unfold Str.mem, ALLOWED_TYPES in Hmem. cbn in Hmem.
  repeat (apply orb_prop in Hmem as [Hmem | Hmem]);
    try apply String.eqb_eq in Hmem; subst; auto. discriminate.
Qed.

Lemma handler_envelope event context env :
  handler event context = Return env -> envelope env.
Proof.
  destruct event as [| | | | | | fields];
    try (cbn; intros [= <-]; constructor).
  destruct (Py.lookup "type" fields) as [event_type |] eqn:Htype.
  - destruct (Py.hashable event_type) eqn:Hhash.
    + destruct (Py.in_set event_type ALLOWED_TYPES) eqn:Hin.
      * apply in_allowed_types in Hin as [-> | [-> | ->]].
        -- rewrite (handler_signup _ _ Htype). apply signup_envelope.
        -- rewrite (handler_payment _ _ Htype). apply payment_envelope.
        -- rewrite (handler_upload _ _ Htype). apply upload_envelope.
      * rewrite (handler_unsupported_type _ _ _ Htype Hhash Hin).
        intros [= <-]. constructor.
    + rewrite (handler_unhashable_type _ _ _ Htype Hhash). discriminate.
  - rewrite (handler_missing_type _ _ Htype). intros [= <-]. constructor.
Qed.

(** ** The claims *)

(** C1. Whatever the event and the context, the value [handler] returns is
    an envelope with exactly the keys [status], [message], [data] and
    [errors], its status is [ok] or [error], and [status = ok], an empty
    [errors] list and a non-null [data] hold together or not at all
    ([status = error] exactly when [data] is null, exactly when [errors]
    is not empty). *)
Theorem handler_returns_well_formed_envelope
  (event : json) (context : option json) (env : json) :
  handler event context = Return env -> well_formed env.
Proof.
  intros H. apply envelope_well_formed. exact (handler_envelope _ _ _ H).
Qed.

Lemma handler_returns_well_formed_envelope_witness :
  well_formed (_err ["Missing 'type' field"]).
Proof.
  apply (handler_returns_well_formed_envelope (JObj []) None).
  reflexivity.
Defined.

(** C2. The claim is that no event makes [handler] raise. The code raises
    on two kinds of event. The membership test
    [event_type not in ALLOWED_TYPES] hashes the value of [type], so a list
    or a dict there raises [TypeError]; and [float(amount)] raises
    [OverflowError] on an integer amount beyond the range of a double, which
    passes every check of the payment validator. *)
Theorem handler_raises_on_some_events :
  handler (JObj [("type", JList [])]) None = Raise TypeError
  /\ handler (JObj [("type", JObj [])]) None = Raise TypeError
  /\ handler (payment_event (JInt (10 ^ 400))) None = Raise OverflowError.
Proof.
  repeat split; vm_compute; reflexivity.
Qed.

(** C6. The claim is that a record whose [type] is none of the three names
    gets the error [Unsupported event type: <value>]. A [type] that is a
    list is such a value, and the membership test raises [TypeError] on it
    before any envelope is built. *)
Theorem handler_unsupported_list_type_raises :
  ~ In (JList [JStr "PAYMENT"]) (map JStr ALLOWED_TYPES)
  /\ handler (JObj [("type", JList [JStr "PAYMENT"])]) None = Raise TypeError.
Proof.
  split.
  - cbn. intros [H | [H | [H | []]]]; discriminate H.
  - reflexivity.
Qed.

(** [Float.div_half_even] is rounding to nearest with ties to even: the
    result is within half a unit of [n / d], and an exact tie gives an even
    result. *)
Lemma div_half_even_nearest n d :
  let r := Float.div_half_even n d in
  2 * Z.abs (n - r * Zpos d) <= Zpos d
  /\ (2 * Z.abs (n - r * Zpos d) = Zpos d -> Z.even r = true).
Proof.
  unfold Float.div_half_even.
  pose proof (Z.div_mod n (Zpos d) ltac:(lia)) as Hdiv.
  pose proof (Z.mod_pos_bound n (Zpos d) ltac:(lia)) as Hmod.
  generalize dependent (n mod Zpos d). generalize dependent (n / Zpos d).
  intros q m Hdiv Hmod.
  assert (Hrem : n - q * Zpos d = m) by lia.
  assert (Hrem' : n - (q + 1) * Zpos d = m - Zpos d) by lia.
  destruct (Z.compare_spec (2 * m) (Zpos d)) as [Hcmp | Hcmp | Hcmp].
  - destruct (Z.even q) eqn:Heven.
    + rewrite Hrem. split; [lia | auto].
    + rewrite Hrem'. split; [lia | intros _].
      rewrite Z.even_add, Heven. reflexivity.
  - rewrite Hrem. split; [lia | intros; exfalso; lia].
  - rewrite Hrem'. split; [lia | intros; exfalso; lia].
Qed.





(** C4. A FILE_UPLOAD event that passes validation succeeds with
    [size_bytes] as it came and a storage class set by its integer value:
    STANDARD below 1,000,000, STANDARD_IA from 1,000,000 up to but not
    including 50,000,000, GLACIER from 50,000,000 on; 999,999 and
    49,999,999 fall in the lower class, 1,000,000 and 50,000,000 in the
    higher. *)
Theorem upload_storage_class :
  (forall (fields : dict) (context : option json),
      Py.lookup "type" fields = Some (JStr "FILE_UPLOAD") ->
      upload_valid fields = true ->
      exists (size : Z) (env : json) (class : string),
        Py.as_int (Py.get fields "size_bytes") = Some size
        /\ handler (JObj fields) context = Return env
        /\ field "status" env = JStr "ok"
        /\ field "size_bytes" (field "data" env) = Py.get fields "size_bytes"
        /\ field "storage_class" (field "data" env) = JStr class
        /\ (size < 1000000 -> class = "STANDARD")
        /\ (1000000 <= size < 50000000 -> class = "STANDARD_IA")
        /\ (50000000 <= size -> class = "GLACIER"))
  /\ (exists env, handler (upload_event 999999) None = Return env
                  /\ field "storage_class" (field "data" env) = JStr "STANDARD")
  /\ (exists env, handler (upload_event 1000000) None = Return env
                  /\ field "storage_class" (field "data" env) = JStr "STANDARD_IA")
  /\ (exists env, handler (upload_event 49999999) None = Return env
                  /\ field "storage_class" (field "data" env) = JStr "STANDARD_IA")
  /\ (exists env, handler (upload_event 50000000) None = Return env
                  /\ field "storage_class" (field "data" env) = JStr "GLACIER").
Proof.
  split; [| repeat split; eexists; split; vm_compute; reflexivity].
  intros fields context Htype Hvalid.
  destruct (upload_accepted fields Hvalid)
    as (f & size & b & u & _ & Hsize & _ & _ & _ & Hok).
  exists size. eexists. exists (storage_class_of size).
  split; [exact Hsize |]. split.
  - rewrite (handler_upload _ _ Htype). exact Hok.
  - cbn. repeat split; auto; unfold storage_class_of; intros H.
    + apply Z.ltb_lt in H. now rewrite H.
    + destruct H as [H1 H2]. apply Z.ltb_ge in H1. apply Z.ltb_lt in H2.
      now rewrite H1, H2.
    + assert (H1 : 1000000 <= size) by lia.
      apply Z.ltb_ge in H, H1. now rewrite H1, H.
Qed.

Lemma upload_storage_class_witness :
  exists (size : Z) (env : json) (class : string),
    Some 2000000 = Some size
    /\ handler (upload_event 2000000) None = Return env
    /\ field "status" env = JStr "ok"
    /\ field "size_bytes" (field "data" env) = JInt 2000000
    /\ field "storage_class" (field "data" env) = JStr class
    /\ (size < 1000000 -> class = "STANDARD")
    /\ (1000000 <= size < 50000000 -> class = "STANDARD_IA")
    /\ (50000000 <= size -> class = "GLACIER").
Proof.
  apply (proj1 upload_storage_class
           [("type", JStr "FILE_UPLOAD"); ("file_name", JStr " a.txt ");
            ("size_bytes", JInt 2000000); ("bucket", JStr "B");
            ("uploader", JStr "U@X.com")] None);
    vm_compute; reflexivity.
Defined.



(** *** The messages an envelope reports *)

Lemma reports_err msgs msg : reports (_err msgs) msg -> In msg msgs.
Proof.
  intros (items & Hitems & Hin). cbn in Hitems. injection Hitems as <-.
  apply in_map_iff in Hin as (m & [= ->] & Hin). exact Hin.
Qed.

Lemma reports_ok message data msg : ~ reports (_ok message data) msg.
Proof.
  intros (items & Hitems & Hin). cbn in Hitems. injection Hitems as <-.
  exact Hin.
Qed.

Lemma signup_reports fields env msg :
  handle_user_signup fields = Return env -> reports env msg ->
  In (true, msg) (signup_table fields).
Proof.
  rewrite <- select_In, <- signup_errors_table.
  destruct (signup_errors fields) as [| m ms] eqn:Herrors.
  - apply signup_errors_nil, signup_accepted in Herrors
      as (email & plan & _ & _ & Hok).
    rewrite Hok. intros [= <-] H. now apply reports_ok in H.
  - rewrite (signup_rejected _ _ _ Herrors). intros [= <-].
    apply reports_err.
Qed.

Lemma payment_reports fields env msg :
  handle_payment fields = Return env -> reports env msg ->
  In (true, msg) (payment_table fields).
Proof.
  rewrite <- select_In, <- payment_errors_table.
  destruct (payment_errors fields) as [| m ms] eqn:Herrors.
  - apply payment_errors_nil, payment_accepted in Herrors
      as (currency & _ & Hok).
    rewrite Hok. destruct (Py.float _); cbn; [| discriminate].
    intros [= <-] H. now apply reports_ok in H.
  - rewrite (payment_rejected _ _ _ Herrors). intros [= <-].
    apply reports_err.
Qed.

Lemma upload_reports fields env msg :
  handle_file_upload fields = Return env -> reports env msg ->
  In (true, msg) (upload_table fields).
Proof.
  rewrite <- select_In, <- upload_errors_table.
  destruct (upload_errors fields) as [| m ms] eqn:Herrors.
  - apply upload_errors_nil, upload_accepted in Herrors
      as (f & n & b & u & _ & _ & _ & _ & _ & Hok).
    rewrite Hok. intros [= <-] H. now apply reports_ok in H.
  - rewrite (upload_rejected _ _ _ Herrors). intros [= <-].
    apply reports_err.
Qed.

(** No row of the table holds the pair: the message is another one, or the
    check of the row is false. *)
Ltac no_such_row H :=
  cbn -[_is_email Str.mem Py.le_zero] in H;
  repeat (destruct H as [H | H]; [discriminate H |]);
  exact H.

(** C9. A boolean passes the integer and the number type checks: with a
    boolean [user_id] (signup, payment), [size_bytes] (file upload) or
    [amount] (payment), the envelope does not report the type error of that
    field; and a payment whose amount is [True] and whose other fields are
    valid succeeds with [amount = 1.0]. *)
Theorem booleans_pass_type_checks :
  (forall fields context env b,
      Py.lookup "type" fields = Some (JStr "USER_SIGNUP") ->
      Py.get fields "user_id" = JBool b ->
      handler (JObj fields) context = Return env ->
      ~ reports env "user_id must be an integer")
  /\ (forall fields context env b,
         Py.lookup "type" fields = Some (JStr "PAYMENT") ->
         Py.get fields "user_id" = JBool b ->
         handler (JObj fields) context = Return env ->
         ~ reports env "user_id must be an integer")
  /\ (forall fields context env b,
         Py.lookup "type" fields = Some (JStr "FILE_UPLOAD") ->
         Py.get fields "size_bytes" = JBool b ->
         handler (JObj fields) context = Return env ->
         ~ reports env "size_bytes must be an integer")
  /\ (forall fields context env b,
         Py.lookup "type" fields = Some (JStr "PAYMENT") ->
         Py.get fields "amount" = JBool b ->
         handler (JObj fields) context = Return env ->
         ~ reports env "amount must be a number")
  /\ (forall fields context,
         Py.lookup "type" fields = Some (JStr "PAYMENT") ->
         Py.get fields "amount" = JBool true ->
         Py.isinstance_str (Py.get fields "payment_id") = true ->
         Py.isinstance_int (Py.get fields "user_id") = true ->
         Py.and_then (Py.as_str (Py.get fields "currency"))
           (fun s => Str.mem (Str.upper s) ["BHD"; "USD"; "EUR"]) = true ->
         exists env,
           handler (JObj fields) context = Return env
           /\ field "status" env = JStr "ok"
           /\ field "amount" (field "data" env) = JFloat (Float.of_Z 1)).
Proof.
  repeat apply conj.
  - intros fields context env b Htype Hget. rewrite (handler_signup _ _ Htype).
    intros Hret Hrep. pose proof (signup_reports _ _ _ Hret Hrep) as Hin.
    unfold signup_table in Hin. rewrite Hget in Hin. no_such_row Hin.
  - intros fields context env b Htype Hget. rewrite (handler_payment _ _ Htype).
    intros Hret Hrep. pose proof (payment_reports _ _ _ Hret Hrep) as Hin.
    unfold payment_table in Hin. rewrite Hget in Hin. no_such_row Hin.
  - intros fields context env b Htype Hget. rewrite (handler_upload _ _ Htype).
    intros Hret Hrep. pose proof (upload_reports _ _ _ Hret Hrep) as Hin.
    unfold upload_table in Hin. rewrite Hget in Hin. no_such_row Hin.
  - intros fields context env b Htype Hget. rewrite (handler_payment _ _ Htype).
    intros Hret Hrep. pose proof (payment_reports _ _ _ Hret Hrep) as Hin.
    unfold payment_table in Hin. rewrite Hget in Hin. no_such_row Hin.
  - intros fields context Htype Hget Hpid Huid Hcur.
    assert (Hvalid : payment_valid fields = true).
    { unfold payment_valid. rewrite Hpid, Huid, Hcur, Hget. reflexivity. }
    destruct (payment_accepted fields Hvalid) as (currency & _ & Hok).
    rewrite (handler_payment _ _ Htype), Hok, Hget.
    eexists. split; [reflexivity |]. split; reflexivity.
Qed.

Lemma booleans_pass_type_checks_witness :
  ~ reports (_err ["email must be a string"; "plan must be a string"])
      "user_id must be an integer"
  /\ exists env,
       handler (payment_event (JBool true)) None = Return env
       /\ field "status" env = JStr "ok"
       /\ field "amount" (field "data" env) = JFloat (Float.of_Z 1).
Proof.
  split.
  - apply (proj1 booleans_pass_type_checks
             [("type", JStr "USER_SIGNUP"); ("user_id", JBool true)]
             None _ true); reflexivity.
  - apply (proj2 (proj2 (proj2 (proj2 booleans_pass_type_checks)))
             [("type", JStr "PAYMENT"); ("payment_id", JStr "p1");
              ("user_id", JInt 1); ("amount", JBool true);
              ("currency", JStr "usd")] None); reflexivity.
Defined.

(** *** Absent fields *)







Lemma select_head msg table :
  select ((true, msg) :: table) = msg :: select table.
Proof.
  reflexivity.
Qed.

Lemma rejected_with_table errors table (handle : result json) msg :
  errors = select table ->
  (forall m ms, errors = m :: ms -> handle = Return (_err (m :: ms))) ->
  In (true, msg) table ->
  handle = Return (_err (select table)).
Proof.
  intros Heq Hrej Hin. apply select_In in Hin. rewrite <- Heq in *.
  destruct errors as [| m ms]; [contradiction |]. now apply Hrej.
Qed.





(** *** The matcher and the language of an expression *)

Lemma nullable_lang r : Re.nullable r = true <-> Re.lang r [].
Proof.
  split.
  - induction r; cbn; intros H; try discriminate.
    + constructor.
    + apply andb_prop in H as [H1 H2].
      apply (Re.lang_cat _ _ [] []); auto.
    + apply orb_prop in H as [H | H].
      * apply Re.lang_alt_l; auto.
      * apply Re.lang_alt_r; auto.
    + constructor.
  - induction r; cbn; intros H; inversion H; subst; auto.
    + match goal with
      | E : (_ ++ _)%list = [] |- _ => apply app_eq_nil in E as [-> ->]
      end.
      rewrite IHr1, IHr2; auto.
    + rewrite IHr1; auto.
    + rewrite IHr2; auto using orb_true_r.
Qed.

Lemma star_cons r c cs :
  Re.lang (Re.Star r) (c :: cs) ->
  exists u v, cs = (u ++ v)%list /\ Re.lang r (c :: u) /\ Re.lang (Re.Star r) v.
Proof.
  remember (Re.Star r) as sr eqn:Hsr. remember (c :: cs) as w eqn:Hw.
  intros H. revert r c cs Hsr Hw.
  induction H as [| p a Hp | r1 r2 u v Hu _ Hv _ | r1 r2 u Hu _ | r1 r2 u Hu _
                 | r0 | r0 u v Hu _ Hv IHv];
    intros r c cs Hsr Hw; try discriminate.
  injection Hsr as ->.
  destruct u as [| c' u'].
  - cbn in Hw. eapply IHv; eauto.
  - cbn in Hw. injection Hw as Hc Hcs. subst. exists u', v. auto.
Qed.

Lemma deriv_lang c r cs : Re.lang (Re.deriv c r) cs <-> Re.lang r (c :: cs).
Proof.
  revert cs. induction r as [| | p | r1 IH1 r2 IH2 | r1 IH1 r2 IH2 | r IH];
    intros cs; cbn.
  - split; intros H; inversion H.
  - split; intros H; inversion H.
  - destruct (p c) eqn:Hp; split; intros H; inversion H; subst.
    + now constructor.
    + constructor.
    + congruence.
  - assert (Hcat : Re.lang (Re.Cat (Re.deriv c r1) r2) cs ->
                   Re.lang (Re.Cat r1 r2) (c :: cs)).
    { intros H. inversion H; subst.
      apply (Re.lang_cat r1 r2 (c :: u) v); auto. now apply IH1. }
    assert (Hsplit : Re.lang (Re.Cat r1 r2) (c :: cs) ->
                     (Re.lang (Re.Cat (Re.deriv c r1) r2) cs)
                     \/ (Re.lang r1 [] /\ Re.lang (Re.deriv c r2) cs)).
    { intros H. inversion H; subst.
      match goal with
      | E : (?u ++ ?v)%list = c :: cs |- _ =>
          destruct u as [| c' u']; cbn in E;
          [subst v | injection E as Hc Hcs; subst]
      end.
      - right. split; auto. now apply IH2.
      - left. constructor; auto. now apply IH1. }
    destruct (Re.nullable r1) eqn:Hnull.
    + split; intros H.
      * inversion H; subst; auto.
        apply (Re.lang_cat r1 r2 [] (c :: cs)).
        -- now apply nullable_lang.
        -- now apply IH2.
      * destruct (Hsplit H) as [Hl | [_ Hr]].
        -- now apply Re.lang_alt_l.
        -- now apply Re.lang_alt_r.
    + split; auto. intros H.
      destruct (Hsplit H) as [Hl | [Hn _]]; auto.
      apply nullable_lang in Hn. congruence.
  - split; intros H; inversion H; subst.
    + apply Re.lang_alt_l. now apply IH1.
    + apply Re.lang_alt_r. now apply IH2.
    + apply Re.lang_alt_l. now apply IH1.
    + apply Re.lang_alt_r. now apply IH2.
  - split; intros H.
    + inversion H; subst.
      apply (Re.lang_star_app r (c :: u) v); auto. now apply IH.
    + apply star_cons in H as (u & v & -> & Hu & Hv).
      constructor; auto. now apply IH.
Qed.

Lemma fullmatch_lang cs r : Re.fullmatch r cs = true <-> Re.lang r cs.
Proof.
  revert r. induction cs as [| c cs IH]; intros r; cbn.
  - apply nullable_lang.
  - rewrite IH. apply deriv_lang.
Qed.

(** *** The language of the email expression *)

Lemma lang_class p cs :
  Re.lang (Re.Class p) cs <-> exists c, cs = [c] /\ p c = true.
Proof.
  split.
  - intros H. inversion H; subst. eauto.
  - intros (c & -> & Hp). now constructor.
Qed.

Lemma lang_star_class p cs :
  Re.lang (Re.Star (Re.Class p)) cs <-> forallb p cs = true.
Proof.
  split.
  - remember (Re.Star (Re.Class p)) as sr eqn:Hsr. intros H.
    induction H as [| q a Hq | r1 r2 u v Hu _ Hv _ | r1 r2 u Hu _
                   | r1 r2 u Hu _ | r0 | r0 u v Hu _ Hv IHv];
      try discriminate; auto.
    injection Hsr as ->. apply lang_class in Hu as (c & -> & Hc).
    cbn. rewrite Hc. auto.
  - induction cs as [| c cs IH]; cbn; intros H.
    + constructor.
    + apply andb_prop in H as [Hc Hcs].
      apply (Re.lang_star_app _ [c] cs); auto. now constructor.
Qed.

Lemma lang_plus_class p cs :
  Re.lang (Re.Plus (Re.Class p)) cs <-> cs <> [] /\ forallb p cs = true.
Proof.
  unfold Re.Plus. split.
  - intros H. inversion H; subst.
    match goal with
    | Hu : Re.lang (Re.Class p) _, Hv : Re.lang (Re.Star _) _ |- _ =>
        apply lang_class in Hu as (c & -> & Hc);
        apply lang_star_class in Hv
    end.
    cbn. rewrite Hc. split; [discriminate | auto].
  - intros [Hne H]. destruct cs as [| c cs]; [congruence |].
    cbn in H. apply andb_prop in H as [Hc Hcs].
    apply (Re.lang_cat _ _ [c] cs).
    + now constructor.
    + now apply lang_star_class.
Qed.

Lemma lang_lit c cs : Re.lang (Re.Lit c) cs <-> cs = [c].
Proof.
  unfold Re.Lit. rewrite lang_class. split.
  - intros (a & -> & Ha). apply Ascii.eqb_eq in Ha. now subst.
  - intros ->. exists c. split; auto. apply Ascii.eqb_refl.
Qed.

Lemma lang_email cs : Re.lang email_regex cs <-> three_parts cs.
Proof.
  unfold email_regex, three_parts. split.
  - intros H.
    inversion H as [| | ? ? u r1 Hu H1 | | | |]; subst; clear H.
    inversion H1 as [| | ? ? a r2 Ha H2 | | | |]; subst; clear H1.
    inversion H2 as [| | ? ? v r3 Hv H3 | | | |]; subst; clear H2.
    inversion H3 as [| | ? ? d w Hd Hw | | | |]; subst; clear H3.
    apply lang_lit in Ha, Hd. subst.
    apply lang_plus_class in Hu as [], Hv as [], Hw as [].
    exists u, v, w. cbn. repeat split; auto.
  - intros (u & v & w & -> & Hu & Hv & Hw & Pu & Pv & Pw).
    apply Re.lang_cat; [now apply lang_plus_class |].
    apply (Re.lang_cat _ _ ["@"%char]); [now apply lang_lit |].
    apply Re.lang_cat; [now apply lang_plus_class |].
    apply (Re.lang_cat _ _ ["."%char]); [now apply lang_lit |].
    now apply lang_plus_class.
Qed.

(** *** The email check as a test on the characters *)

Lemma ok_char_spec c :
  ok_char c = true <-> Ascii.eqb "@" c = false /\ Str.is_space c = false.
Proof.
  unfold ok_char. rewrite (Ascii.eqb_sym c "@").
  destruct (Ascii.eqb "@" c), (Str.is_space c); cbn; intuition congruence.
Qed.

Lemma plain_spec cs :
  forallb ok_char cs = true
  <-> has_char "@" cs = false /\ existsb Str.is_space cs = false.
Proof.
  unfold has_char. induction cs as [| c cs IH]; cbn.
  - tauto.
  - rewrite andb_true_iff, !orb_false_iff, IH, ok_char_spec. tauto.
Qed.

Lemma split_at_app sep u d :
  has_char sep u = false -> split_at sep (u ++ sep :: d)%list = Some (u, d).
Proof.
  unfold has_char. induction u as [| c u IH]; cbn.
  - now rewrite Ascii.eqb_refl.
  - rewrite orb_false_iff, (Ascii.eqb_sym sep c). intros [Hc Hu].
    now rewrite Hc, (IH Hu).
Qed.

Lemma split_at_spec sep cs u d :
  split_at sep cs = Some (u, d) ->
  cs = (u ++ sep :: d)%list /\ has_char sep u = false.
Proof.
  unfold has_char. revert u. induction cs as [| c cs IH]; cbn; intros u H.
  - discriminate.
  - destruct (Ascii.eqb c sep) eqn:Hc.
    + injection H as <- <-. apply Ascii.eqb_eq in Hc. now subst.
    + destruct (split_at sep cs) as [[u' d'] |]; [| discriminate].
      injection H as <- <-. destruct (IH u' eq_refl) as [-> Hu].
      cbn. now rewrite (Ascii.eqb_sym sep c), Hc, Hu.
Qed.

Lemma dot_before_end_app v w :
  w <> [] -> dot_before_end (v ++ "."%char :: w) = true.
Proof.
  intros Hw. induction v as [| c v IH]; cbn.
  - destruct w; [congruence | reflexivity].
  - rewrite IH. apply orb_true_r.
Qed.

Lemma dot_before_end_inv cs :
  dot_before_end cs = true ->
  exists v w, cs = (v ++ "."%char :: w)%list /\ w <> [].
Proof.
  induction cs as [| c cs IH]; cbn; [discriminate |].
  intros H. apply orb_prop in H as [H | H].
  - apply andb_prop in H as [Hc Hcs]. apply Ascii.eqb_eq in Hc. subst c.
    exists [], cs. split; auto. destruct cs; [discriminate | discriminate].
  - destruct (IH H) as (v & w & -> & Hw). exists (c :: v), w. auto.
Qed.

Lemma email_shape_parts cs : email_shape cs = true <-> three_parts cs.
Proof.
  unfold email_shape, three_parts. split.
  - destruct (split_at "@" cs) as [[u d] |] eqn:Hsplit; [| discriminate].
    apply split_at_spec in Hsplit as [-> Hu]. intros H.
    apply andb_prop in H as [H Hdot]. apply andb_prop in H as [H Hspace].
    apply andb_prop in H as [Hat Hne].
    apply negb_true_iff in Hat, Hspace.
    destruct d as [| a rest]; [discriminate |]. cbn [inner_dot] in Hdot.
    apply dot_before_end_inv in Hdot as (v' & w & -> & Hw).
    exists u, (a :: v'), w.
    change (a :: v' ++ "."%char :: w)%list
      with ((a :: v') ++ "."%char :: w)%list in *.
    unfold has_char in *.
    rewrite existsb_app in Hspace. cbn [existsb] in Hspace.
    rewrite existsb_app in Hspace, Hat. cbn [existsb] in Hspace, Hat.
    repeat match goal with
           | H : (_ || _) = false |- _ => apply orb_false_iff in H as []
           end.
    repeat split; auto; try discriminate.
    + destruct u; [discriminate | discriminate].
    + apply plain_spec. auto.
    + apply plain_spec. unfold has_char. cbn [existsb].
      split; apply orb_false_iff; auto.
    + apply plain_spec. auto.
  - intros (u & v & w & -> & Hu & Hv & Hw & Pu & Pv & Pw).
    apply plain_spec in Pu as [Au Su], Pv as [Av Sv], Pw as [Aw Sw].
    rewrite (split_at_app _ _ _ Au). unfold has_char in *.
    rewrite !existsb_app. cbn [existsb]. rewrite !existsb_app. cbn [existsb].
    rewrite Av, Aw, Su, Sv, Sw.
    destruct u as [| c u]; [congruence |].
    destruct v as [| a v]; [congruence |].
    cbn. now apply dot_before_end_app.
Qed.

Lemma fullmatch_email cs : Re.fullmatch email_regex cs = email_shape cs.
Proof.
  apply eq_true_iff_eq.
  now rewrite fullmatch_lang, lang_email, email_shape_parts.
Qed.

(** The check on any string: the shape, on the string itself or on what
    precedes a newline that ends it. *)
Lemma is_email_spec s :
  _is_email s
  = email_shape (Str.chars s)
    || match Re.before_final_newline (Str.chars s) with
       | Some cs => email_shape cs
       | None => false
       end.
Proof.
  unfold _is_email, Re.match_dollar. rewrite fullmatch_email.
  destruct (Re.before_final_newline (Str.chars s)); auto.
  now rewrite fullmatch_email.
Qed.

(** An address followed by a newline is accepted. *)
Example is_email_trailing_newline :
  _is_email ("a@b.c" ++ String Re.newline EmptyString) = true.
Proof.
  reflexivity.
Qed.

(** C8, as stated, does not hold: [a@.b] has one ['@'], text on both sides
    of it, no whitespace and a ['.'] in its domain, and the check rejects
    it. *)
Lemma is_email_not_prose :
  ~ (forall s : string, _is_email s = true <-> email_prose s = true).
Proof.
  intros H. destruct (H "a@.b") as [_ Hacc].
  specialize (Hacc eq_refl). vm_compute in Hacc. discriminate Hacc.
Qed.

(** C8, amended. A string that does not end in a newline is accepted
    exactly when it has one ['@'] with text before it, no whitespace
    anywhere, and after the ['@'] a ['.'] with at least one character of the
    domain before it and at least one after it. *)
Theorem is_email_shape (s : string) :
  ends_with_newline s = false ->
  _is_email s = email_shape (Str.chars s).
Proof.
  unfold ends_with_newline. intros Hend. rewrite is_email_spec.
  destruct (Re.before_final_newline (Str.chars s)); [discriminate |].
  apply orb_false_r.
Qed.

Lemma is_email_shape_witness :
  _is_email "a@b.c" = email_shape (Str.chars "a@b.c").
Proof.
  apply (is_email_shape "a@b.c"). reflexivity.
Defined.

(** *** When the handler raises *)



(** *** Scenarios *)

(** Scenarios 3 to 6 of the specification. *)
Example scenario_negative_amount :
  handler (payment_event (JInt (-5))) None
  = Return (_err ["amount must be greater than 0"]).
Proof. vm_compute. reflexivity. Qed.

Example scenario_upload :
  handler (upload_event 2000000) None
  = Return (_ok "Upload processed"
              [("file_name", JStr "a.txt");
               ("size_bytes", JInt 2000000);
               ("bucket", JStr "b");
               ("uploader", JStr "u@x.com");
               ("storage_class", JStr "STANDARD_IA")]).
Proof. vm_compute. reflexivity. Qed.

Example scenario_unknown_type :
  handler (JObj [("type", JStr "UNKNOWN")]) None
  = Return (_err ["Unsupported event type: UNKNOWN"]).
Proof. vm_compute. reflexivity. Qed.

Example scenario_empty_event :
  handler (JObj []) None = Return (_err ["Missing 'type' field"]).
Proof. reflexivity. Qed.

(** A [type] that is not a string is interpolated as [str] prints it. *)
Example unsupported_scalar_types :
  handler (JObj [("type", JNull)]) None
  = Return (_err ["Unsupported event type: None"])
  /\ handler (JObj [("type", JBool true)]) None
     = Return (_err ["Unsupported event type: True"])
  /\ handler (JObj [("type", JInt 7)]) None
     = Return (_err ["Unsupported event type: 7"])
  /\ handler (JObj [("type", JFloat (Float.of_decimal 15 1))]) None
     = Return (_err ["Unsupported event type: 1.5"]).
Proof. repeat split; vm_compute; reflexivity. Qed.

(** Rounding to three places: an exact tie goes to the even digit, and it
    is the binary value that is rounded ([2.675] lies below the tie). *)
Example round_ties :
  Float.round (Float.of_decimal 625 4) 3 = Float.of_decimal 62 3
  /\ Float.round (Float.of_decimal 1875 4) 3 = Float.of_decimal 188 3
  /\ Float.round (Float.of_decimal 2675 3) 2 = Float.of_decimal 267 2.
Proof. repeat split; vm_compute; reflexivity. Qed.

(** A payment of 19.999: the fee is computed from the rounded amount and
    the net amount from both. *)
Example payment_with_fraction :
  handler (payment_event (JFloat (Float.of_decimal 19999 3))) None
  = Return (_ok "Payment processed"
              [("payment_id", JStr "p1");
               ("user_id", JInt 1);
               ("amount", JFloat (Float.of_decimal 19999 3));
               ("currency", JStr "USD");
               ("fee", JFloat (Float.of_decimal 4 1));
               ("net_amount", JFloat (Float.of_decimal 19599 3))]).
Proof. vm_compute. reflexivity. Qed.

(** ** Further properties of the handler *)








(** *** The error list of an envelope *)

Lemma select_NoDup table : NoDup (map snd table) -> NoDup (select table).
Proof.
  unfold select. induction table as [| [c m] table IH]; cbn; intros Hnd.
  - constructor.
  - inversion Hnd as [| ? ? Hnotin Hrest]; subst.
    destruct c; cbn; auto. constructor; auto.
    intros Hin. apply Hnotin. apply in_map_iff in Hin as ([c' m'] & Hm & Hin).
    apply filter_In in Hin as [Hin _]. apply in_map_iff. now exists (c', m').
Qed.

Ltac split_views :=
  unfold Py.isinstance_int, Py.isinstance_str, Py.isinstance_number,
    Py.is_some, Py.and_then;
  repeat match goal with
         | |- context [Py.as_int ?v] => destruct (Py.as_int v); calm
         | |- context [Py.as_str ?v] => destruct (Py.as_str v); calm
         | |- context [Py.as_number ?v] => destruct (Py.as_number v); calm
         end;
  repeat match goal with
         | |- context [_is_email ?s] => destruct (_is_email s); calm
         | |- context [Str.mem ?s ?set] => destruct (Str.mem s set); calm
         | |- context [Py.le_zero ?a] => destruct (Py.le_zero a); calm
         | |- context [?a <=? ?b] => destruct (a <=? b); calm
         end.

Lemma signup_table_bound fields :
  (List.length (select (signup_table fields)) <= 3)%nat.
Proof.
  unfold signup_table, select. split_views; lia.
Qed.

Lemma payment_table_bound fields :
  (List.length (select (payment_table fields)) <= 4)%nat.
Proof.
  unfold payment_table, select. split_views; lia.
Qed.

Lemma upload_table_bound fields :
  (List.length (select (upload_table fields)) <= 4)%nat.
Proof.
  unfold upload_table, select. split_views; lia.
Qed.

Ltac distinct_literals :=
  repeat (constructor; [cbn; intuition discriminate |]); constructor.

(** The envelopes [handler] returns, by the list they carry. *)
Lemma handler_error_list event context env :
  handler event context = Return env ->
  (exists message data, env = _ok message data)
  \/ (exists msg, env = _err [msg])
  \/ (exists fields, env = _err (select (signup_table fields)))
  \/ (exists fields, env = _err (select (payment_table fields)))
  \/ (exists fields, env = _err (select (upload_table fields))).
Proof.
  destruct event as [| | | | | | fields];
    try (cbn; intros [= <-]; right; left; eauto).
  destruct (Py.lookup "type" fields) as [event_type |] eqn:Htype.
  - destruct (Py.hashable event_type) eqn:Hhash.
    + destruct (Py.in_set event_type ALLOWED_TYPES) eqn:Hin.
      * apply in_allowed_types in Hin as [-> | [-> | ->]].
        -- rewrite (handler_signup _ _ Htype).
           destruct (signup_errors fields) as [| m ms] eqn:Herrors.
           ++ apply signup_errors_nil, signup_accepted in Herrors
                as (email & plan & _ & _ & Hok).
              rewrite Hok. intros [= <-]. left. eauto.
           ++ rewrite (signup_rejected _ _ _ Herrors). intros [= <-].
              rewrite <- Herrors, signup_errors_table. right. right. left.
              eauto.
        -- rewrite (handler_payment _ _ Htype).
           destruct (payment_errors fields) as [| m ms] eqn:Herrors.
           ++ apply payment_errors_nil, payment_accepted in Herrors
                as (currency & _ & Hok).
              rewrite Hok. destruct (Py.float _); cbn; [| discriminate].
              intros [= <-]. left. eauto.
           ++ rewrite (payment_rejected _ _ _ Herrors). intros [= <-].
              rewrite <- Herrors, payment_errors_table.
              right. right. right. left. eauto.
        -- rewrite (handler_upload _ _ Htype).
           destruct (upload_errors fields) as [| m ms] eqn:Herrors.
           ++ apply upload_errors_nil, upload_accepted in Herrors
                as (f & n & b & u & _ & _ & _ & _ & _ & Hok).
              rewrite Hok. intros [= <-]. left. eauto.
           ++ rewrite (upload_rejected _ _ _ Herrors). intros [= <-].
              rewrite <- Herrors, upload_errors_table.
              right. right. right. right. eauto.
      * rewrite (handler_unsupported_type _ _ _ Htype Hhash Hin).
        intros [= <-]. right. left. eauto.
    + rewrite (handler_unhashable_type _ _ _ Htype Hhash). discriminate.
  - rewrite (handler_missing_type _ _ Htype). intros [= <-].
    right. left. eauto.
Qed.

Lemma errors_of_err msgs : errors_of (_err msgs) = Some (map JStr msgs).
Proof.
  reflexivity.
Qed.

Lemma errors_of_ok message data : errors_of (_ok message data) = Some [].
Proof.
  reflexivity.
Qed.

(** X5. The [errors] entry of every envelope [handler] returns is a list
    of strings, no two of them equal, and at most four of them: a
    validator has at most one message for each field it reads. *)
Theorem handler_errors_distinct_and_few
  (event : json) (context : option json) (env : json) :
  handler event context = Return env ->
  exists items, errors_of env = Some items /\ distinct_strings 4 items.
Proof.
  intros Hrun. unfold distinct_strings.
  destruct (handler_error_list _ _ _ Hrun)
    as [(m & d & ->) | [(msg & ->) | [(f & ->) | [(f & ->) | (f & ->)]]]];
    rewrite ?errors_of_err, ?errors_of_ok;
    eexists; (split; [reflexivity |]).
  - exists []. cbn. repeat split; auto. constructor.
  - exists [msg]. cbn. repeat split; auto.
    constructor; [intros [] | constructor].
  - eexists. split; [reflexivity |]. split.
    + apply select_NoDup. cbn. distinct_literals.
    + pose proof (signup_table_bound f). lia.
  - eexists. split; [reflexivity |]. split.
    + apply select_NoDup. cbn. distinct_literals.
    + apply payment_table_bound.
  - eexists. split; [reflexivity |]. split.
    + apply select_NoDup. cbn. distinct_literals.
    + apply upload_table_bound.
Qed.

Lemma handler_errors_distinct_and_few_witness :
  exists items,
    errors_of (_err ["file_name must be a string";
                     "size_bytes must be >= 0";
                     "bucket must be a string";
                     "Invalid uploader email"]) = Some items
    /\ distinct_strings 4 items.
Proof.
  apply (handler_errors_distinct_and_few bad_upload None).
  vm_compute. reflexivity.
Defined.

(** *** Reading a field of an extended event *)

Lemma lookup_cons_neq key k v fields :
  key <> k -> Py.lookup key ((k, v) :: fields) = Py.lookup key fields.
Proof.
  intros Hneq. cbn. apply String.eqb_neq in Hneq. now rewrite Hneq.
Qed.

Lemma get_cons_neq key k v fields :
  key <> k -> Py.get ((k, v) :: fields) key = Py.get fields key.
Proof.
  intros Hneq. unfold Py.get. now rewrite lookup_cons_neq.
Qed.

Lemma get_cons_eq k v fields : Py.get ((k, v) :: fields) k = v.
Proof.
  unfold Py.get. cbn. now rewrite String.eqb_refl.
Qed.

Lemma signup_reads f1 f2 :
  Py.get f1 "user_id" = Py.get f2 "user_id" ->
  Py.get f1 "email" = Py.get f2 "email" ->
  Py.get f1 "plan" = Py.get f2 "plan" ->
  handle_user_signup f1 = handle_user_signup f2.
Proof.
  intros H1 H2 H3. unfold handle_user_signup, signup_errors.
  now rewrite H1, H2, H3.
Qed.

Lemma payment_reads f1 f2 :
  Py.get f1 "payment_id" = Py.get f2 "payment_id" ->
  Py.get f1 "user_id" = Py.get f2 "user_id" ->
  Py.get f1 "amount" = Py.get f2 "amount" ->
  Py.get f1 "currency" = Py.get f2 "currency" ->
  handle_payment f1 = handle_payment f2.
Proof.
  intros H1 H2 H3 H4. unfold handle_payment, payment_errors.
  now rewrite H1, H2, H3, H4.
Qed.

Lemma upload_reads f1 f2 :
  Py.get f1 "file_name" = Py.get f2 "file_name" ->
  Py.get f1 "size_bytes" = Py.get f2 "size_bytes" ->
  Py.get f1 "bucket" = Py.get f2 "bucket" ->
  Py.get f1 "uploader" = Py.get f2 "uploader" ->
  handle_file_upload f1 = handle_file_upload f2.
Proof.
  intros H1 H2 H3 H4. unfold handle_file_upload, upload_errors.
  now rewrite H1, H2, H3, H4.
Qed.

Lemma handler_same_type f1 f2 context :
  Py.lookup "type" f1 = Py.lookup "type" f2 ->
  handle_user_signup f1 = handle_user_signup f2 ->
  handle_payment f1 = handle_payment f2 ->
  handle_file_upload f1 = handle_file_upload f2 ->
  handler (JObj f1) context = handler (JObj f2) context.
Proof.
  intros Htype H1 H2 H3. unfold handler. now rewrite Htype, H1, H2, H3.
Qed.

(** An event of a kind that is none of the three is answered from its
    [type] alone. *)
Lemma handler_other_kind f1 f2 context kind :
  Py.lookup "type" f1 = Some (JStr kind) ->
  Py.lookup "type" f2 = Some (JStr kind) ->
  kind <> "USER_SIGNUP" -> kind <> "PAYMENT" -> kind <> "FILE_UPLOAD" ->
  handler (JObj f1) context = handler (JObj f2) context.
Proof.
  intros H1 H2 N1 N2 N3. unfold handler. rewrite H1, H2.
  apply String.eqb_neq in N1, N2, N3.
  cbn -[handle_user_signup handle_payment handle_file_upload].
  now rewrite N1, N2, N3.
Qed.

(** X7. A field that the validator of the event's kind does not read is
    ignored: adding it to the event, even in front of the other fields,
    changes nothing in what [handler] returns. *)
Theorem unread_field_ignored
  (kind key : string) (value : json) (fields : dict)
  (context : option json) :
  Py.lookup "type" fields = Some (JStr kind) ->
  ~ In key (keys_read kind) ->
  handler (JObj ((key, value) :: fields)) context
  = handler (JObj fields) context.
Proof.
  intros Htype Hunread. unfold keys_read in Hunread.
  assert (Hkey : "type" <> key) by (intros <-; apply Hunread; now left).
  assert (Htype' : Py.lookup "type" ((key, value) :: fields)
                   = Some (JStr kind))
    by (now rewrite lookup_cons_neq).
  assert (Hget : forall k, In k (map fst (required_fields kind)) ->
                           Py.get ((key, value) :: fields) k
                           = Py.get fields k).
  { intros k Hk. apply get_cons_neq. intros ->. apply Hunread. now right. }
  unfold required_fields in Hget.
  destruct (String.eqb_spec kind "USER_SIGNUP") as [-> | N1].
  { rewrite (handler_signup _ _ Htype), (handler_signup _ _ Htype').
    apply signup_reads; apply Hget; cbn; tauto. }
  destruct (String.eqb_spec kind "PAYMENT") as [-> | N2].
  { rewrite (handler_payment _ _ Htype), (handler_payment _ _ Htype').
    apply payment_reads; apply Hget; cbn; tauto. }
  destruct (String.eqb_spec kind "FILE_UPLOAD") as [-> | N3].
  { rewrite (handler_upload _ _ Htype), (handler_upload _ _ Htype').
    apply upload_reads; apply Hget; cbn; tauto. }
  now apply (handler_other_kind _ _ _ kind).
Qed.

Lemma unread_field_ignored_witness :
  handler (JObj [("amount", JInt 3); ("type", JStr "USER_SIGNUP");
                 ("user_id", JInt 7); ("email", JStr "A@B.com");
                 ("plan", JStr "PRO")]) None
  = handler signup_scenario None.
Proof.
  apply (unread_field_ignored "USER_SIGNUP" "amount" (JInt 3)
           [("type", JStr "USER_SIGNUP"); ("user_id", JInt 7);
            ("email", JStr "A@B.com"); ("plan", JStr "PRO")] None).
  - reflexivity.
  - cbn. intros [H | [H | [H | [H | []]]]]; discriminate H.
Defined.

(** *** Lower case, upper case and the email check *)

Ltac every_char c := destruct c as [[] [] [] [] [] [] [] []]; reflexivity.

Lemma lower_char_idem c : Str.lower_char (Str.lower_char c) = Str.lower_char c.
Proof. every_char c. Qed.

Lemma upper_char_idem c : Str.upper_char (Str.upper_char c) = Str.upper_char c.
Proof. every_char c. Qed.

Lemma lower_char_space c : Str.is_space (Str.lower_char c) = Str.is_space c.
Proof. every_char c. Qed.

Lemma lower_char_at c :
  Ascii.eqb (Str.lower_char c) "@" = Ascii.eqb c "@".
Proof. every_char c. Qed.

Lemma lower_char_dot c :
  Ascii.eqb (Str.lower_char c) "." = Ascii.eqb c ".".
Proof. every_char c. Qed.

Lemma lower_char_newline c :
  Ascii.eqb (Str.lower_char c) Re.newline = Ascii.eqb c Re.newline.
Proof. every_char c. Qed.

Lemma chars_of_chars cs : Str.chars (Str.of_chars cs) = cs.
Proof.
  apply list_ascii_of_string_of_list_ascii.
Qed.

Lemma of_chars_chars s : Str.of_chars (Str.chars s) = s.
Proof.
  apply string_of_list_ascii_of_string.
Qed.

Lemma lower_idem s : Str.lower (Str.lower s) = Str.lower s.
Proof.
  unfold Str.lower. rewrite chars_of_chars, map_map. f_equal.
  apply map_ext. apply lower_char_idem.
Qed.

Lemma upper_idem s : Str.upper (Str.upper s) = Str.upper s.
Proof.
  unfold Str.upper. rewrite chars_of_chars, map_map. f_equal.
  apply map_ext. apply upper_char_idem.
Qed.

Section CharMap.

(** A map on characters that keeps whitespace, ['@'], ['.'] and the
    newline apart from the other characters. *)
Variable f : ascii -> ascii.
Hypothesis f_space : forall c, Str.is_space (f c) = Str.is_space c.
Hypothesis f_at : forall c, Ascii.eqb (f c) "@" = Ascii.eqb c "@".
Hypothesis f_dot : forall c, Ascii.eqb (f c) "." = Ascii.eqb c ".".
Hypothesis f_newline :
  forall c, Ascii.eqb (f c) Re.newline = Ascii.eqb c Re.newline.

Lemma split_at_map cs :
  split_at "@" (map f cs)
  = match split_at "@" cs with
    | Some (u, d) => Some (map f u, map f d)
    | None => None
    end.
Proof.
  induction cs as [| c cs IH]; cbn [map split_at]; auto.
  rewrite f_at, IH. destruct (Ascii.eqb c "@"); auto.
  destruct (split_at "@" cs) as [[u d] |]; auto.
Qed.

Lemma has_at_map cs : has_char "@" (map f cs) = has_char "@" cs.
Proof.
  unfold has_char. induction cs as [| c cs IH]; cbn [map existsb]; auto.
  now rewrite IH, (Ascii.eqb_sym "@" (f c)), f_at, (Ascii.eqb_sym c "@").
Qed.

Lemma has_space_map cs :
  existsb Str.is_space (map f cs) = existsb Str.is_space cs.
Proof.
  induction cs as [| c cs IH]; cbn; auto. now rewrite IH, f_space.
Qed.

Lemma is_nil_map (cs : list ascii) : is_nil (map f cs) = is_nil cs.
Proof.
  destruct cs; reflexivity.
Qed.

Lemma dot_before_end_map cs :
  dot_before_end (map f cs) = dot_before_end cs.
Proof.
  induction cs as [| c cs IH]; cbn [map dot_before_end]; auto.
  now rewrite IH, f_dot, is_nil_map.
Qed.

Lemma email_shape_map cs : email_shape (map f cs) = email_shape cs.
Proof.
  unfold email_shape. rewrite split_at_map, has_space_map.
  destruct (split_at "@" cs) as [[u d] |]; auto.
  rewrite has_at_map, is_nil_map. f_equal.
  destruct d; cbn; auto using dot_before_end_map.
Qed.

Lemma before_final_newline_map cs :
  Re.before_final_newline (map f cs)
  = option_map (map f) (Re.before_final_newline cs).
Proof.
  unfold Re.before_final_newline. rewrite <- map_rev.
  destruct (rev cs) as [| c t]; cbn [map]; auto.
  rewrite f_newline. destruct (Ascii.eqb c Re.newline); cbn [option_map]; auto.
  now rewrite map_rev.
Qed.

Lemma is_email_map s :
  _is_email (Str.of_chars (map f (Str.chars s))) = _is_email s.
Proof.
  rewrite !is_email_spec, chars_of_chars, email_shape_map,
    before_final_newline_map.
  destruct (Re.before_final_newline (Str.chars s)); cbn; auto.
  now rewrite email_shape_map.
Qed.

End CharMap.

(** X9. The email check does not depend on the case of the letters: a
    string passes it exactly when its lower-cased form does, so the address
    put in the data of a success envelope passes the check too. *)
Theorem is_email_lower (s : string) : _is_email (Str.lower s) = _is_email s.
Proof.
  unfold Str.lower.
  apply is_email_map;
    auto using lower_char_space, lower_char_at, lower_char_dot,
      lower_char_newline.
Qed.

Lemma is_email_same_lower e1 e2 :
  Str.lower e1 = Str.lower e2 -> _is_email e1 = _is_email e2.
Proof.
  intros H.
  assert (Hl : forall s, _is_email (Str.lower s) = _is_email s).
  { intros s. unfold Str.lower.
    apply is_email_map;
      auto using lower_char_space, lower_char_at, lower_char_dot,
        lower_char_newline. }
  now rewrite <- (Hl e1), <- (Hl e2), H.
Qed.

Lemma get_cons key k v fields :
  Py.get ((k, v) :: fields) key
  = if String.eqb key k then v else Py.get fields key.
Proof.
  unfold Py.get. cbn. now destruct (String.eqb key k).
Qed.

Ltac read_fields :=
  rewrite ?get_cons; cbn [String.eqb Ascii.eqb Bool.eqb].

(** X8. Letter case does not matter where the validators normalise: two
    signup events that differ in the case of the plan or of the email, two
    payments that differ in the case of the currency, and two uploads that
    differ in the case of the bucket or of the uploader get the same
    answer. *)
Theorem case_is_ignored :
  (forall fields context p1 p2,
      Py.lookup "type" fields = Some (JStr "USER_SIGNUP") ->
      Str.lower p1 = Str.lower p2 ->
      handler (JObj (("plan", JStr p1) :: fields)) context
      = handler (JObj (("plan", JStr p2) :: fields)) context)
  /\ (forall fields context e1 e2,
         Py.lookup "type" fields = Some (JStr "USER_SIGNUP") ->
         Str.lower e1 = Str.lower e2 ->
         handler (JObj (("email", JStr e1) :: fields)) context
         = handler (JObj (("email", JStr e2) :: fields)) context)
  /\ (forall fields context c1 c2,
         Py.lookup "type" fields = Some (JStr "PAYMENT") ->
         Str.upper c1 = Str.upper c2 ->
         handler (JObj (("currency", JStr c1) :: fields)) context
         = handler (JObj (("currency", JStr c2) :: fields)) context)
  /\ (forall fields context b1 b2,
         Py.lookup "type" fields = Some (JStr "FILE_UPLOAD") ->
         Str.lower b1 = Str.lower b2 ->
         handler (JObj (("bucket", JStr b1) :: fields)) context
         = handler (JObj (("bucket", JStr b2) :: fields)) context)
  /\ (forall fields context u1 u2,
         Py.lookup "type" fields = Some (JStr "FILE_UPLOAD") ->
         Str.lower u1 = Str.lower u2 ->
         handler (JObj (("uploader", JStr u1) :: fields)) context
         = handler (JObj (("uploader", JStr u2) :: fields)) context).
Proof.
  repeat apply conj; intros fields context s1 s2 Htype Hcase.
  - rewrite !handler_signup by (now rewrite lookup_cons_neq).
    unfold handle_user_signup, signup_errors. read_fields.
    calm. now rewrite Hcase.
  - rewrite !handler_signup by (now rewrite lookup_cons_neq).
    unfold handle_user_signup, signup_errors. read_fields.
    calm. now rewrite Hcase, (is_email_same_lower _ _ Hcase).
  - rewrite !handler_payment by (now rewrite lookup_cons_neq).
    unfold handle_payment, payment_errors. read_fields.
    calm. now rewrite Hcase.
  - rewrite !handler_upload by (now rewrite lookup_cons_neq).
    unfold handle_file_upload, upload_errors. read_fields.
    calm. now rewrite Hcase.
  - rewrite !handler_upload by (now rewrite lookup_cons_neq).
    unfold handle_file_upload, upload_errors. read_fields.
    calm. now rewrite Hcase, (is_email_same_lower _ _ Hcase).
Qed.

Lemma case_is_ignored_witness :
  handler (JObj [("plan", JStr "Pro"); ("type", JStr "USER_SIGNUP");
                 ("user_id", JInt 7); ("email", JStr "A@B.com")]) None
  = handler (JObj [("plan", JStr "PRO"); ("type", JStr "USER_SIGNUP");
                   ("user_id", JInt 7); ("email", JStr "A@B.com")]) None.
Proof.
  apply (proj1 case_is_ignored
           [("type", JStr "USER_SIGNUP"); ("user_id", JInt 7);
            ("email", JStr "A@B.com")] None "Pro" "PRO");
    reflexivity.
Defined.

(** *** Stripping whitespace *)

Lemma lstrip_head cs : head_is_space (Str.lstrip cs) = false.
Proof.
  induction cs as [| c cs IH]; cbn; auto.
  destruct (Str.is_space c) eqn:Hc; cbn; auto.
Qed.

Lemma lstrip_fixed cs : head_is_space cs = false -> Str.lstrip cs = cs.
Proof.
  destruct cs as [| c cs]; cbn; auto. now intros ->.
Qed.

Lemma lstrip_suffix cs : exists p, cs = (p ++ Str.lstrip cs)%list.
Proof.
  induction cs as [| c cs [p IH]]; cbn.
  - now exists [].
  - destruct (Str.is_space c).
    + exists (c :: p). cbn. now rewrite <- IH.
    + now exists [].
Qed.

Lemma strip_chars_trimmed cs :
  let r := rev (Str.lstrip (rev (Str.lstrip cs))) in
  head_is_space r = false /\ head_is_space (rev r) = false.
Proof.
  cbv zeta. split.
  - destruct (lstrip_suffix (rev (Str.lstrip cs))) as [p Hp].
    pose proof (lstrip_head cs) as Hhead.
    apply (f_equal (@rev ascii)) in Hp.
    rewrite rev_involutive, rev_app_distr in Hp.
    destruct (rev (Str.lstrip (rev (Str.lstrip cs)))) as [| c t]; auto.
    rewrite Hp in Hhead. exact Hhead.
  - rewrite rev_involutive. apply lstrip_head.
Qed.

Lemma strip_trimmed s : trimmed (Str.strip s) = true.
Proof.
  unfold trimmed, Str.strip. rewrite chars_of_chars.
  destruct (strip_chars_trimmed (Str.chars s)) as [H1 H2].
  now rewrite H1, H2.
Qed.

Lemma strip_idem s : Str.strip (Str.strip s) = Str.strip s.
Proof.
  unfold Str.strip at 1. unfold Str.strip at 1. rewrite chars_of_chars.
  destruct (strip_chars_trimmed (Str.chars s)) as [H1 H2].
  rewrite (lstrip_fixed _ H1), (lstrip_fixed _ H2), rev_involutive.
  reflexivity.
Qed.

(** *** Sending the data back *)

(** X10. Normalising twice changes nothing: the data of a successful
    signup, sent back as a signup event, is accepted and gives the same
    envelope. *)
Theorem signup_data_is_normal
  (fields : dict) (context : option json) (message : string) (data : dict) :
  Py.lookup "type" fields = Some (JStr "USER_SIGNUP") ->
  handler (JObj fields) context = Return (_ok message data) ->
  handler (tagged "USER_SIGNUP" data) context = Return (_ok message data).
Proof.
  intros Htype. rewrite (handler_signup _ _ Htype).
  destruct (signup_errors fields) as [| m ms] eqn:Herrors.
  - apply signup_errors_nil in Herrors.
    destruct (signup_accepted _ Herrors) as (email & plan & He & Hp & Hok).
    rewrite Hok. intros [= <- <-].
    unfold signup_valid in Herrors. rewrite He, Hp in Herrors.
    apply andb_prop in Herrors as [Herrors Hplan].
    apply andb_prop in Herrors as [Hid Hemail].
    cbn [Py.and_then Py.as_str] in Hemail, Hplan.
    unfold tagged. rewrite handler_signup by reflexivity.
    match goal with
    | |- handle_user_signup ?e = _ =>
        assert (Hvalid : signup_valid e = true)
    end.
    { unfold signup_valid. read_fields. cbn -[_is_email Str.mem].
      rewrite Hid, lower_idem, Hplan.
      now rewrite (is_email_same_lower _ email (lower_idem email)), Hemail. }
    destruct (signup_accepted _ Hvalid) as (e' & p' & He' & Hp' & Hok').
    revert He' Hp' Hok'. read_fields. intros [= <-] [= <-].
    now rewrite !lower_idem.
  - rewrite (signup_rejected _ _ _ Herrors). discriminate.
Qed.

Lemma signup_data_is_normal_witness :
  handler (tagged "USER_SIGNUP"
             [("user_id", JInt 7); ("email", JStr "a@b.com");
              ("plan", JStr "pro");
              ("welcome_email_subject", JStr "Welcome to the pro plan!")])
    None
  = Return (_ok "Signup processed"
              [("user_id", JInt 7); ("email", JStr "a@b.com");
               ("plan", JStr "pro");
               ("welcome_email_subject", JStr "Welcome to the pro plan!")]).
Proof.
  apply (signup_data_is_normal
           [("type", JStr "USER_SIGNUP"); ("user_id", JInt 7);
            ("email", JStr "A@B.com"); ("plan", JStr "PRO")] None);
    vm_compute; reflexivity.
Defined.

(** X11. The data of a successful upload, sent back as an upload event,
    is accepted and gives the same envelope: stripping and lower-casing
    have nothing left to do. *)
Theorem upload_data_is_normal
  (fields : dict) (context : option json) (message : string) (data : dict) :
  Py.lookup "type" fields = Some (JStr "FILE_UPLOAD") ->
  handler (JObj fields) context = Return (_ok message data) ->
  handler (tagged "FILE_UPLOAD" data) context = Return (_ok message data).
Proof.
  intros Htype. rewrite (handler_upload _ _ Htype).
  destruct (upload_errors fields) as [| m ms] eqn:Herrors.
  - apply upload_errors_nil in Herrors.
    destruct (upload_accepted _ Herrors)
      as (f & size & b & u & Hf & Hsize & _ & Hb & Hu & Hok).
    rewrite Hok. intros [= <- <-].
    unfold upload_valid in Herrors. rewrite Hu, Hsize in Herrors.
    apply andb_prop in Herrors as [Herrors Hemail].
    apply andb_prop in Herrors as [Herrors _].
    apply andb_prop in Herrors as [_ Hpos].
    cbn [Py.and_then Py.as_str] in Hemail, Hpos.
    unfold tagged. rewrite handler_upload by reflexivity.
    match goal with
    | |- handle_file_upload ?e = _ =>
        assert (Hvalid : upload_valid e = true)
    end.
    { unfold upload_valid. read_fields. rewrite Hsize.
      cbn -[_is_email Z.leb]. rewrite Hpos.
      now rewrite (is_email_same_lower _ u (lower_idem u)), Hemail. }
    destruct (upload_accepted _ Hvalid)
      as (f' & size' & b' & u' & Hf' & Hsize' & _ & Hb' & Hu' & Hok').
    revert Hf' Hsize' Hb' Hu' Hok'. read_fields. rewrite Hsize.
    intros [= <-] [= <-] [= <-] [= <-].
    now rewrite strip_idem, !lower_idem.
  - rewrite (upload_rejected _ _ _ Herrors). discriminate.
Qed.

Lemma upload_data_is_normal_witness :
  handler (tagged "FILE_UPLOAD"
             [("file_name", JStr "a.txt"); ("size_bytes", JInt 2000000);
              ("bucket", JStr "b"); ("uploader", JStr "u@x.com");
              ("storage_class", JStr "STANDARD_IA")]) None
  = Return (_ok "Upload processed"
              [("file_name", JStr "a.txt"); ("size_bytes", JInt 2000000);
               ("bucket", JStr "b"); ("uploader", JStr "u@x.com");
               ("storage_class", JStr "STANDARD_IA")]).
Proof.
  apply (upload_data_is_normal
           [("type", JStr "FILE_UPLOAD"); ("file_name", JStr " a.txt ");
            ("size_bytes", JInt 2000000); ("bucket", JStr "B");
            ("uploader", JStr "U@X.com")] None);
    vm_compute; reflexivity.
Defined.

(** X15. The file name in the data of a successful upload neither starts
    nor ends with a whitespace character. *)
Theorem upload_file_name_trimmed
  (fields : dict) (context : option json) (message : string) (data : dict) :
  Py.lookup "type" fields = Some (JStr "FILE_UPLOAD") ->
  handler (JObj fields) context = Return (_ok message data) ->
  exists name, Py.get data "file_name" = JStr name /\ trimmed name = true.
Proof.
  intros Htype. rewrite (handler_upload _ _ Htype).
  destruct (upload_errors fields) as [| m ms] eqn:Herrors.
  - apply upload_errors_nil, upload_accepted in Herrors
      as (f & size & b & u & _ & _ & _ & _ & _ & Hok).
    rewrite Hok. intros [= <- <-].
    exists (Str.strip f). split; [reflexivity | apply strip_trimmed].
  - rewrite (upload_rejected _ _ _ Herrors). discriminate.
Qed.

Lemma upload_file_name_trimmed_witness :
  exists name,
    Py.get [("file_name", JStr "a.txt"); ("size_bytes", JInt 2000000);
            ("bucket", JStr "b"); ("uploader", JStr "u@x.com");
            ("storage_class", JStr "STANDARD_IA")] "file_name" = JStr name
    /\ trimmed name = true.
Proof.
  apply (upload_file_name_trimmed
           [("type", JStr "FILE_UPLOAD"); ("file_name", JStr " a.txt ");
            ("size_bytes", JInt 2000000); ("bucket", JStr "B");
            ("uploader", JStr "U@X.com")] None "Upload processed");
    vm_compute; reflexivity.
Defined.

(** *** Values and messages of an envelope *)

Lemma mem_In s set : Str.mem s set = true -> In s set.
Proof.
  unfold Str.mem. intros H. apply existsb_exists in H as (t & Hin & Heq).
  apply String.eqb_eq in Heq. now subst.
Qed.

(** X12. The data of a success envelope holds normalised values only: a
    signup has plan [free], [pro] or [edu] and the subject made from it, a
    payment has currency [BHD], [USD] or [EUR], an upload has storage
    class [STANDARD], [STANDARD_IA] or [GLACIER]. *)
Theorem success_values :
  (forall fields context message data,
      Py.lookup "type" fields = Some (JStr "USER_SIGNUP") ->
      handler (JObj fields) context = Return (_ok message data) ->
      exists plan,
        In plan ["free"; "pro"; "edu"]
        /\ Py.get data "plan" = JStr plan
        /\ Py.get data "welcome_email_subject"
           = JStr ("Welcome to the " ++ plan ++ " plan!"))
  /\ (forall fields context message data,
         Py.lookup "type" fields = Some (JStr "PAYMENT") ->
         handler (JObj fields) context = Return (_ok message data) ->
         exists currency,
           In currency ["BHD"; "USD"; "EUR"]
           /\ Py.get data "currency" = JStr currency)
  /\ (forall fields context message data,
         Py.lookup "type" fields = Some (JStr "FILE_UPLOAD") ->
         handler (JObj fields) context = Return (_ok message data) ->
         exists class,
           In class ["STANDARD"; "STANDARD_IA"; "GLACIER"]
           /\ Py.get data "storage_class" = JStr class).
Proof.
  repeat apply conj; intros fields context message data Htype.
  - rewrite (handler_signup _ _ Htype).
    destruct (signup_errors fields) as [| m ms] eqn:Herrors.
    + apply signup_errors_nil in Herrors.
      destruct (signup_accepted _ Herrors) as (email & plan & _ & Hp & Hok).
      rewrite Hok. intros [= <- <-].
      unfold signup_valid in Herrors. rewrite Hp in Herrors.
      apply andb_prop in Herrors as [_ Hplan].
      cbn [Py.and_then Py.as_str] in Hplan.
      exists (Str.lower plan). split; [now apply mem_In |].
      split; reflexivity.
    + rewrite (signup_rejected _ _ _ Herrors). discriminate.
  - rewrite (handler_payment _ _ Htype).
    destruct (payment_errors fields) as [| m ms] eqn:Herrors.
    + apply payment_errors_nil in Herrors.
      destruct (payment_accepted _ Herrors) as (currency & Hc & Hok).
      rewrite Hok. destruct (Py.float _); cbn [bind]; [| discriminate].
      intros [= <- <-].
      unfold payment_valid in Herrors. rewrite Hc in Herrors.
      apply andb_prop in Herrors as [_ Hcur].
      cbn [Py.and_then Py.as_str] in Hcur.
      exists (Str.upper currency). split; [now apply mem_In | reflexivity].
    + rewrite (payment_rejected _ _ _ Herrors). discriminate.
  - rewrite (handler_upload _ _ Htype).
    destruct (upload_errors fields) as [| m ms] eqn:Herrors.
    + apply upload_errors_nil, upload_accepted in Herrors
        as (f & size & b & u & _ & _ & _ & _ & _ & Hok).
      rewrite Hok. intros [= <- <-].
      exists (storage_class_of size). split; [| reflexivity].
      unfold storage_class_of.
      destruct (size <? 1000000); [| destruct (size <? 50000000)];
        cbn; tauto.
    + rewrite (upload_rejected _ _ _ Herrors). discriminate.
Qed.

Lemma success_values_witness :
  exists plan,
    In plan ["free"; "pro"; "edu"]
    /\ Py.get [("user_id", JInt 7); ("email", JStr "a@b.com");
               ("plan", JStr "pro");
               ("welcome_email_subject", JStr "Welcome to the pro plan!")]
         "plan" = JStr plan
    /\ Py.get [("user_id", JInt 7); ("email", JStr "a@b.com");
               ("plan", JStr "pro");
               ("welcome_email_subject", JStr "Welcome to the pro plan!")]
         "welcome_email_subject"
       = JStr ("Welcome to the " ++ plan ++ " plan!").
Proof.
  apply (proj1 success_values
           [("type", JStr "USER_SIGNUP"); ("user_id", JInt 7);
            ("email", JStr "A@B.com"); ("plan", JStr "PRO")]
           None "Signup processed");
    vm_compute; reflexivity.
Defined.

(** X6. The message of an envelope tells the outcome: [Event rejected]
    with every error, and with a success the message of the event's kind,
    [Signup processed], [Payment processed] or [Upload processed]. *)
Theorem message_by_outcome
  (event : json) (context : option json) (env : json) :
  handler event context = Return env ->
  (field "status" env = JStr "error"
   /\ field "message" env = JStr "Event rejected")
  \/ (field "status" env = JStr "ok"
      /\ exists fields kind,
           event = JObj fields
           /\ Py.lookup "type" fields = Some (JStr kind)
           /\ In (kind, field "message" env)
                [("USER_SIGNUP", JStr "Signup processed");
                 ("PAYMENT", JStr "Payment processed");
                 ("FILE_UPLOAD", JStr "Upload processed")]).
Proof.
  destruct event as [| | | | | | fields];
    try (cbn; intros [= <-]; left; split; reflexivity).
  destruct (Py.lookup "type" fields) as [event_type |] eqn:Htype.
  - destruct (Py.hashable event_type) eqn:Hhash.
    + destruct (Py.in_set event_type ALLOWED_TYPES) eqn:Hin.
      * apply in_allowed_types in Hin as [-> | [-> | ->]].
        -- rewrite (handler_signup _ _ Htype).
           destruct (signup_errors fields) as [| m ms] eqn:Herrors.
           ++ apply signup_errors_nil, signup_accepted in Herrors
                as (email & plan & _ & _ & Hok).
              rewrite Hok. intros [= <-]. right. split; [reflexivity |].
              exists fields, "USER_SIGNUP". cbn. tauto.
           ++ rewrite (signup_rejected _ _ _ Herrors). intros [= <-].
              left. split; reflexivity.
        -- rewrite (handler_payment _ _ Htype).
           destruct (payment_errors fields) as [| m ms] eqn:Herrors.
           ++ apply payment_errors_nil, payment_accepted in Herrors
                as (currency & _ & Hok).
              rewrite Hok. destruct (Py.float _); cbn [bind]; [| discriminate].
              intros [= <-]. right. split; [reflexivity |].
              exists fields, "PAYMENT". cbn. tauto.
           ++ rewrite (payment_rejected _ _ _ Herrors). intros [= <-].
              left. split; reflexivity.
        -- rewrite (handler_upload _ _ Htype).
           destruct (upload_errors fields) as [| m ms] eqn:Herrors.
           ++ apply upload_errors_nil, upload_accepted in Herrors
                as (f & n & b & u & _ & _ & _ & _ & _ & Hok).
              rewrite Hok. intros [= <-]. right. split; [reflexivity |].
              exists fields, "FILE_UPLOAD". cbn. tauto.
           ++ rewrite (upload_rejected _ _ _ Herrors). intros [= <-].
              left. split; reflexivity.
      * rewrite (handler_unsupported_type _ _ _ Htype Hhash Hin).
        intros [= <-]. left. split; reflexivity.
    + rewrite (handler_unhashable_type _ _ _ Htype Hhash). discriminate.
  - rewrite (handler_missing_type _ _ Htype). intros [= <-].
    left. split; reflexivity.
Qed.

Lemma message_by_outcome_witness :
  (field "status" (_err ["Missing 'type' field"]) = JStr "error"
   /\ field "message" (_err ["Missing 'type' field"]) = JStr "Event rejected")
  \/ (field "status" (_err ["Missing 'type' field"]) = JStr "ok"
      /\ exists fields kind,
           JObj [] = JObj fields
           /\ Py.lookup "type" fields = Some (JStr kind)
           /\ In (kind, field "message" (_err ["Missing 'type' field"]))
                [("USER_SIGNUP", JStr "Signup processed");
                 ("PAYMENT", JStr "Payment processed");
                 ("FILE_UPLOAD", JStr "Upload processed")]).
Proof.
  apply (message_by_outcome (JObj []) None). reflexivity.
Defined.

(** *** A message is reported exactly when its check fails *)

Lemma reports_intro msgs msg : In msg msgs -> reports (_err msgs) msg.
Proof.
  intros Hin. exists (map JStr msgs). split; [reflexivity |].
  now apply in_map.
Qed.

Lemma payment_reports_iff fields context msg :
  Py.lookup "type" fields = Some (JStr "PAYMENT") ->
  (exists env, handler (JObj fields) context = Return env /\ reports env msg)
  <-> In (true, msg) (payment_table fields).
Proof.
  intros Htype. rewrite (handler_payment _ _ Htype). split.
  - intros (env & Hrun & Hrep). exact (payment_reports _ _ _ Hrun Hrep).
  - intros Hin. exists (_err (select (payment_table fields))). split.
    + apply (rejected_with_table (payment_errors fields) _ _ msg); auto.
      * apply payment_errors_table.
      * apply payment_rejected.
    + apply reports_intro, select_In, Hin.
Qed.

Lemma upload_reports_iff fields context msg :
  Py.lookup "type" fields = Some (JStr "FILE_UPLOAD") ->
  (exists env, handler (JObj fields) context = Return env /\ reports env msg)
  <-> In (true, msg) (upload_table fields).
Proof.
  intros Htype. rewrite (handler_upload _ _ Htype). split.
  - intros (env & Hrun & Hrep). exact (upload_reports _ _ _ Hrun Hrep).
  - intros Hin. exists (_err (select (upload_table fields))). split.
    + apply (rejected_with_table (upload_errors fields) _ _ msg); auto.
      * apply upload_errors_table.
      * apply upload_rejected.
    + apply reports_intro, select_In, Hin.
Qed.

(** The one row of a table that carries the message. *)
Ltac the_row H :=
  cbn -[_is_email Str.mem Py.le_zero Z.leb Z.ltb] in H;
  repeat (destruct H as [H | H]; [try discriminate H |]);
  try contradiction.

(** X16. The amount of a payment must be strictly positive: the message
    [amount must be greater than 0] is reported exactly when the amount is
    an integer that is zero or negative, the boolean [False], or a float
    that compares [<= 0]; so a zero amount is rejected. *)
Theorem amount_must_be_positive :
  (forall fields context n,
      Py.lookup "type" fields = Some (JStr "PAYMENT") ->
      Py.get fields "amount" = JInt n ->
      ((exists env, handler (JObj fields) context = Return env
                    /\ reports env "amount must be greater than 0")
       <-> n <= 0))
  /\ (forall fields context b,
         Py.lookup "type" fields = Some (JStr "PAYMENT") ->
         Py.get fields "amount" = JBool b ->
         ((exists env, handler (JObj fields) context = Return env
                       /\ reports env "amount must be greater than 0")
          <-> b = false))
  /\ (forall fields context x,
         Py.lookup "type" fields = Some (JStr "PAYMENT") ->
         Py.get fields "amount" = JFloat x ->
         ((exists env, handler (JObj fields) context = Return env
                       /\ reports env "amount must be greater than 0")
          <-> Float.leb x Float.zero = true)).
Proof.
  repeat apply conj; intros fields context v Htype Hget;
    rewrite (payment_reports_iff _ _ _ Htype);
    unfold payment_table; rewrite Hget; split.
  - intros H. the_row H. injection H as H. now apply Z.leb_le.
  - intros H. apply Z.leb_le in H. cbn -[Z.leb]. rewrite H. tauto.
  - intros H. the_row H. injection H as H. now destruct v.
  - intros ->. cbn. tauto.
  - intros H. the_row H. now injection H as H.
  - intros H. cbn -[Float.leb]. cbn [Py.le_zero]. rewrite H. tauto.
Qed.

Lemma amount_must_be_positive_witness :
  (exists env, handler (payment_event (JInt 0)) None = Return env
               /\ reports env "amount must be greater than 0")
  <-> 0 <= 0.
Proof.
  apply (proj1 amount_must_be_positive
           [("type", JStr "PAYMENT"); ("payment_id", JStr "p1");
            ("user_id", JInt 1); ("amount", JInt 0);
            ("currency", JStr "usd")] None 0);
    reflexivity.
Defined.

(** X17. The size of an upload may be zero but not negative: the message
    [size_bytes must be >= 0] is reported exactly when [size_bytes] is a
    negative integer. *)
Theorem size_must_not_be_negative
  (fields : dict) (context : option json) (n : Z) :
  Py.lookup "type" fields = Some (JStr "FILE_UPLOAD") ->
  Py.get fields "size_bytes" = JInt n ->
  ((exists env, handler (JObj fields) context = Return env
                /\ reports env "size_bytes must be >= 0")
   <-> n < 0).
Proof.
  intros Htype Hget. rewrite (upload_reports_iff _ _ _ Htype).
  unfold upload_table. rewrite Hget. split.
  - intros H. the_row H. injection H as H.
    cbn -[Z.leb] in H. apply negb_true_iff, Z.leb_gt in H. exact H.
  - intros H. apply Z.leb_gt in H. cbn -[Z.leb]. rewrite H. cbn. tauto.
Qed.

Lemma size_must_not_be_negative_witness :
  (exists env, handler (upload_event (-1)) None = Return env
               /\ reports env "size_bytes must be >= 0")
  <-> -1 < 0.
Proof.
  apply (size_must_not_be_negative
           [("type", JStr "FILE_UPLOAD"); ("file_name", JStr " a.txt ");
            ("size_bytes", JInt (-1)); ("bucket", JStr "B");
            ("uploader", JStr "U@X.com")] None (-1));
    reflexivity.
Defined.

(** *** Acceptance *)

(** X18. The validators accept exactly the events that pass every check:
    a signup or an upload succeeds if and only if it is valid, and a
    payment succeeds if and only if it is valid and its amount converts to
    a float. *)
Theorem accepted_iff_valid :
  (forall fields context,
      Py.lookup "type" fields = Some (JStr "USER_SIGNUP") ->
      ((exists data, handler (JObj fields) context
                     = Return (_ok "Signup processed" data))
       <-> signup_valid fields = true))
  /\ (forall fields context,
         Py.lookup "type" fields = Some (JStr "PAYMENT") ->
         ((exists data, handler (JObj fields) context
                        = Return (_ok "Payment processed" data))
          <-> payment_valid fields = true
              /\ exists x, Py.float (Py.get fields "amount") = Return x))
  /\ (forall fields context,
         Py.lookup "type" fields = Some (JStr "FILE_UPLOAD") ->
         ((exists data, handler (JObj fields) context
                        = Return (_ok "Upload processed" data))
          <-> upload_valid fields = true)).
Proof.
  repeat apply conj; intros fields context Htype.
  - rewrite (handler_signup _ _ Htype), <- signup_errors_nil. split.
    + intros (data & Hrun).
      destruct (signup_errors fields) as [| m ms] eqn:Herrors; auto.
      rewrite (signup_rejected _ _ _ Herrors) in Hrun. discriminate.
    + intros Hnil. apply signup_errors_nil, signup_accepted in Hnil
        as (email & plan & _ & _ & Hok).
      rewrite Hok. eauto.
  - rewrite (handler_payment _ _ Htype), <- payment_errors_nil. split.
    + intros (data & Hrun).
      destruct (payment_errors fields) as [| m ms] eqn:Herrors.
      * split; auto.
        apply payment_errors_nil, payment_accepted in Herrors
          as (currency & _ & Hok).
        rewrite Hok in Hrun.
        destruct (Py.float (Py.get fields "amount")); [eauto | discriminate].
      * rewrite (payment_rejected _ _ _ Herrors) in Hrun. discriminate.
    + intros [Hnil (x & Hx)].
      apply payment_errors_nil, payment_accepted in Hnil
        as (currency & _ & Hok).
      rewrite Hok, Hx. cbn [bind]. eauto.
  - rewrite (handler_upload _ _ Htype), <- upload_errors_nil. split.
    + intros (data & Hrun).
      destruct (upload_errors fields) as [| m ms] eqn:Herrors; auto.
      rewrite (upload_rejected _ _ _ Herrors) in Hrun. discriminate.
    + intros Hnil. apply upload_errors_nil, upload_accepted in Hnil
        as (f & n & b & u & _ & _ & _ & _ & _ & Hok).
      rewrite Hok. eauto.
Qed.

Lemma accepted_iff_valid_witness :
  (exists data, handler signup_scenario None
                = Return (_ok "Signup processed" data))
  <-> signup_valid [("type", JStr "USER_SIGNUP"); ("user_id", JInt 7);
                    ("email", JStr "A@B.com"); ("plan", JStr "PRO")] = true.
Proof.
  apply (proj1 accepted_iff_valid
           [("type", JStr "USER_SIGNUP"); ("user_id", JInt 7);
            ("email", JStr "A@B.com"); ("plan", JStr "PRO")] None).
  reflexivity.
Defined.

(** *** Amounts at the edge *)

Lemma scaled_nonneg m e k : 0 <= fst (Float.scaled m e k).
Proof.
  unfold Float.scaled. destruct e; cbn [fst]; lia.
Qed.

Lemma div_half_even_small n d :
  0 <= n -> 2 * n < Zpos d -> Float.div_half_even n d = 0.
Proof.
  intros Hn Hsmall. unfold Float.div_half_even.
  rewrite Z.mod_small, Z.div_small by lia.
  destruct (Z.compare_spec (2 * n) (Zpos d)); lia.
Qed.

Lemma round_small x :
  below_half_thousandth x = true -> Float.round x 3 = S754_zero false.
Proof.
  unfold below_half_thousandth, Float.round.
  destruct x as [| | | [] m e]; try discriminate.
  pose proof (scaled_nonneg m e 3) as Hn.
  destruct (Float.scaled m e 3) as [n d]. cbn [fst] in Hn.
  intros Hsmall. apply Z.ltb_lt in Hsmall.
  now rewrite (div_half_even_small _ _ Hn Hsmall).
Qed.

Lemma payment_valid_with fields a :
  Py.isinstance_str (Py.get fields "payment_id") = true ->
  Py.isinstance_int (Py.get fields "user_id") = true ->
  Py.as_number (Py.get fields "amount") = Some a ->
  Py.le_zero a = false ->
  Py.and_then (Py.as_str (Py.get fields "currency"))
    (fun s => Str.mem (Str.upper s) ["BHD"; "USD"; "EUR"]) = true ->
  payment_valid fields = true.
Proof.
  intros Hpid Huid Ha Hpos Hcur. unfold payment_valid.
  rewrite Hpid, Huid, Ha, Hcur. cbn [Py.and_then]. now rewrite Hpos.
Qed.

(** X13. The amount is rounded after it is checked: a payment whose
    amount is a positive float below half a thousandth, and whose other
    fields are valid, is accepted, and its data shows amount, fee and net
    amount [0.0]. *)
Theorem tiny_amount_is_recorded_as_zero
  (fields : dict) (context : option json) (x : Float.float) :
  Py.lookup "type" fields = Some (JStr "PAYMENT") ->
  Py.get fields "amount" = JFloat x ->
  below_half_thousandth x = true ->
  Py.isinstance_str (Py.get fields "payment_id") = true ->
  Py.isinstance_int (Py.get fields "user_id") = true ->
  Py.and_then (Py.as_str (Py.get fields "currency"))
    (fun s => Str.mem (Str.upper s) ["BHD"; "USD"; "EUR"]) = true ->
  exists data,
    handler (JObj fields) context = Return (_ok "Payment processed" data)
    /\ Py.get data "amount" = JFloat Float.zero
    /\ Py.get data "fee" = JFloat Float.zero
    /\ Py.get data "net_amount" = JFloat Float.zero.
Proof.
  intros Htype Hget Hsmall Hpid Huid Hcur.
  assert (Hvalid : payment_valid fields = true).
  { apply (payment_valid_with _ (Py.NFloat x)); auto.
    - now rewrite Hget.
    - destruct x as [| | | [] m e]; try discriminate. reflexivity. }
  destruct (payment_accepted _ Hvalid) as (currency & _ & Hok).
  rewrite (handler_payment _ _ Htype), Hok, Hget.
  cbn [Py.float Py.as_number Py.float_of_number bind].
  rewrite (round_small _ Hsmall).
  eexists. split; [reflexivity |]. repeat split; reflexivity.
Qed.

Lemma tiny_amount_is_recorded_as_zero_witness :
  exists data,
    handler (payment_event (JFloat (Float.of_decimal 4 4))) None
    = Return (_ok "Payment processed" data)
    /\ Py.get data "amount" = JFloat Float.zero
    /\ Py.get data "fee" = JFloat Float.zero
    /\ Py.get data "net_amount" = JFloat Float.zero.
Proof.
  apply (tiny_amount_is_recorded_as_zero
           [("type", JStr "PAYMENT"); ("payment_id", JStr "p1");
            ("user_id", JInt 1); ("amount", JFloat (Float.of_decimal 4 4));
            ("currency", JStr "usd")] None (Float.of_decimal 4 4));
    vm_compute; reflexivity.
Defined.

(** X14. The positivity check lets the floats that are not numbers of
    money through: a payment whose amount is NaN or positive infinity, and
    whose other fields are valid, is accepted with that amount. *)
Theorem nonfinite_amount_is_accepted
  (fields : dict) (context : option json) (x : Float.float) :
  Py.lookup "type" fields = Some (JStr "PAYMENT") ->
  Py.get fields "amount" = JFloat x ->
  x = S754_nan \/ x = S754_infinity false ->
  Py.isinstance_str (Py.get fields "payment_id") = true ->
  Py.isinstance_int (Py.get fields "user_id") = true ->
  Py.and_then (Py.as_str (Py.get fields "currency"))
    (fun s => Str.mem (Str.upper s) ["BHD"; "USD"; "EUR"]) = true ->
  exists data,
    handler (JObj fields) context = Return (_ok "Payment processed" data)
    /\ Py.get data "amount" = JFloat x.
Proof.
  intros Htype Hget Hx Hpid Huid Hcur.
  assert (Hvalid : payment_valid fields = true).
  { apply (payment_valid_with _ (Py.NFloat x)); auto.
    - now rewrite Hget.
    - destruct Hx as [-> | ->]; reflexivity. }
  destruct (payment_accepted _ Hvalid) as (currency & _ & Hok).
  rewrite (handler_payment _ _ Htype), Hok, Hget.
  cbn [Py.float Py.as_number Py.float_of_number bind].
  eexists. split; [reflexivity |].
  destruct Hx as [-> | ->]; reflexivity.
Qed.

Lemma nonfinite_amount_is_accepted_witness :
  exists data,
    handler (payment_event (JFloat S754_nan)) None
    = Return (_ok "Payment processed" data)
    /\ Py.get data "amount" = JFloat S754_nan.
Proof.
  apply (nonfinite_amount_is_accepted
           [("type", JStr "PAYMENT"); ("payment_id", JStr "p1");
            ("user_id", JInt 1); ("amount", JFloat S754_nan);
            ("currency", JStr "usd")] None S754_nan);
    try reflexivity.
  now left.
Defined.

(** *** Events that make the handler raise *)

(** X19. Every event whose [type] is a list or a dict makes [handler]
    raise [TypeError], whatever its other fields, and every payment that
    passes validation with an integer amount out of the range of a double
    makes it raise [OverflowError]. *)
Theorem handler_raises_whenever :
  (forall fields context event_type,
      Py.lookup "type" fields = Some event_type ->
      Py.hashable event_type = false ->
      handler (JObj fields) context = Raise TypeError)
  /\ (forall fields context n sign,
         Py.lookup "type" fields = Some (JStr "PAYMENT") ->
         payment_valid fields = true ->
         Py.get fields "amount" = JInt n ->
         Float.of_Z n = S754_infinity sign ->
         handler (JObj fields) context = Raise OverflowError).
Proof.
  split.
  - intros fields context event_type Htype Hhash. cbn.
    now rewrite Htype, Hhash.
  - intros fields context n sign Htype Hvalid Hget Hinf.
    destruct (payment_accepted _ Hvalid) as (currency & _ & Hok).
    rewrite (handler_payment _ _ Htype), Hok, Hget.
    cbn [Py.float Py.as_number Py.as_int Py.float_of_number].
    now rewrite Hinf.
Qed.

Lemma handler_raises_whenever_witness :
  handler (JObj [("type", JObj [("kind", JStr "PAYMENT")]);
                 ("amount", JInt 1)]) None
  = Raise TypeError.
Proof.
  apply (proj1 handler_raises_whenever
           [("type", JObj [("kind", JStr "PAYMENT")]); ("amount", JInt 1)]
           None (JObj [("kind", JStr "PAYMENT")]));
    reflexivity.
Defined.



(** *** The check and a final newline *)

Lemma chars_append s t :
  Str.chars (s ++ t) = (Str.chars s ++ Str.chars t)%list.
Proof.
  unfold Str.chars. induction s as [| c s IH]; cbn; auto.
  now rewrite IH.
Qed.

Lemma email_shape_no_space cs :
  existsb Str.is_space cs = true -> email_shape cs = false.
Proof.
  intros H. unfold email_shape.
  destruct (split_at "@" cs) as [[u d] |]; auto.
  rewrite H. cbn. now rewrite andb_false_r.
Qed.

(** X21. A newline at the very end of the string is not seen by the
    check: a string followed by a newline passes exactly when the string
    itself has the shape of an address. *)
Theorem is_email_ignores_final_newline (s : string) :
  _is_email (s ++ String Re.newline EmptyString) = email_shape (Str.chars s).
Proof.
  rewrite is_email_spec, chars_append.
  change (Str.chars (String Re.newline EmptyString)) with [Re.newline].
  unfold Re.before_final_newline. rewrite rev_app_distr. cbn [rev app].
  rewrite rev_involutive.
  rewrite email_shape_no_space; [reflexivity |].
  rewrite existsb_app. cbn. apply orb_true_r.
Qed.
